(** * Test-pass metrics accumulation of [src/main_new.py]

    A shallow embedding of [MetricsLoggingCallback]: the two accumulation
    buffers, the per-batch hook [on_test_batch_end] and the end-of-pass hook
    [on_test_end], together with the parts of numpy, torch and mlflow that
    the two hooks call.

    Conventions of the embedding.
    - A numpy array is its shape and its elements in row-major order.
      Elements are real numbers: float rounding is not modelled, except
      in the binary64 version of the sigmoid.
    - Python exceptions are values of [exn]; a call yields an [outcome].
    - The instance attributes and mlflow's process-wide state are threaded
      through the monad [M]; writes made before a [Raise] stay visible
      after it, as in Python.
    - Every call into mlflow or the metrics reporter is recorded, in call
      order, in the list of [event]s a computation returns. *)

From Stdlib Require Import Reals Lra Lia List String.
From Stdlib Require Import PrimFloat.
From stdpp Require Import base option list strings gmap.

Open Scope string_scope.
Open Scope list_scope.

(** ** Exceptions and outcomes *)

Inductive exn : Type :=
  | ValueError (msg : string)
  | KeyError (key : string)
  | RuntimeError (msg : string)
  | TypeError (msg : string)
  | MlflowException (msg : string)
  | ShapeMismatchError
  | TrackingBackendError.

Inductive outcome (A : Type) : Type :=
  | Return (a : A)
  | Raise (e : exn).
Arguments Return {A} a.
Arguments Raise {A} e.

(** ** numpy arrays *)

Record ndarray : Type := { shape : list nat; data : list R }.

(** Number of elements of an array of the given shape. *)
Definition size_of (sh : list nat) : nat := fold_right Nat.mul 1 sh.

(** Every array numpy builds holds exactly [size_of shape] elements. *)
Definition well_shaped (a : ndarray) : Prop :=
  length (data a) = size_of (shape a).

(** [len(a)], the extent along axis 0 (the batch axis). *)
Definition len (a : ndarray) : nat := hd 0 (shape a).

(** Elements per axis-0 entry, and the axis-0 entries themselves. *)
Definition row_size (a : ndarray) : nat := size_of (tl (shape a)).

Definition row (a : ndarray) (i : nat) : list R :=
  take (row_size a) (drop (i * row_size a) (data a)).

Definition rows (a : ndarray) : list (list R) := map (row a) (seq 0 (len a)).

Definition need_at_least_one_array : string :=
  "need at least one array to concatenate".
Definition zero_dimensional : string :=
  "zero-dimensional arrays cannot be concatenated".
Definition dimensions_must_match : string :=
  "all the input array dimensions except for the concatenation axis must match exactly".

(** The error [np.concatenate] raises on an empty sequence; the spec calls
    it [NoDataError]. *)
Definition NoDataError : exn := ValueError need_at_least_one_array.

(** An operand is accepted next to a first operand of trailing shape [tl]
    when it has an axis 0 and the same trailing shape. *)
Definition concat_compatible (tl : list nat) (b : ndarray) : bool :=
  match shape b with
  | [] => false
  | _ :: tlb => bool_decide (tlb = tl)
  end.

(** [np.concatenate(arrs, axis=0)]. *)
Definition np_concatenate (arrs : list ndarray) : outcome ndarray :=
  match arrs with
  | [] => Raise NoDataError
  | a :: rest =>
      match shape a with
      | [] => Raise (ValueError zero_dimensional)
      | _ :: tl =>
          if forallb (concat_compatible tl) rest
          then Return {| shape := sum_list (map len arrs) :: tl;
                         data := concat (map data arrs) |}
          else Raise (ValueError dimensions_must_match)
      end
  end.

(** [scipy.special.expit], imported as [sigmoid]: the logistic function,
    applied elementwise. *)
Definition expit (x : R) : R := (1 / (1 + exp (- x)))%R.

Definition sigmoid (a : ndarray) : ndarray :=
  {| shape := shape a; data := map expit (data a) |}.

(** *** The same transform in binary64 arithmetic *)

(** [expit] as scipy computes it on doubles, [1 / (1 + exp(-x))], over the
    exponential of the C library, which is taken as an argument. *)
Definition expit_binary64 (exp : float -> float) (x : float) : float :=
  (1 / (1 + exp (- x)))%float.

Definition sigmoid_binary64 (exp : float -> float) (logits : list float)
    : list float :=
  map (expit_binary64 exp) logits.

(** A binary64 exponential by scaling and squaring: the Taylor polynomial
    of degree 12 at [x / 1024], squared ten times. It stands in for the
    exponential of the C library, which is not among the sources, and
    agrees with it to about twelve digits. *)
Definition taylor_exp (y : float) : float :=
  (1 + y * (1 + y / 2 * (1 + y / 3 * (1 + y / 4 * (1 + y / 5 * (1 + y / 6 *
   (1 + y / 7 * (1 + y / 8 * (1 + y / 9 * (1 + y / 10 * (1 + y / 11 *
   (1 + y / 12))))))))))))%float.

Fixpoint square_times (n : nat) (y : float) : float :=
  match n with
  | O => y
  | S n' => square_times n' (y * y)%float
  end.

Definition exp_binary64 (x : float) : float :=
  square_times 10 (taylor_exp (x / 1024)%float).

(** The double nearest to the exponential of -40. *)
Definition exp_minus_40 : float := 0x1.39792499b1a24p-58%float.

(** Neither infinite nor a NaN. *)
Definition finite (x : float) : bool :=
  negb (PrimFloat.is_nan x || PrimFloat.is_infinity x).

(** Strictly between 0 and 1. *)
Definition strictly_inside (p : float) : bool :=
  PrimFloat.ltb 0%float p && PrimFloat.ltb p 1%float.

(** ** torch tensors *)

(** Scalar types of torch; numpy has no counterpart of [BFloat16]. *)
Inductive ScalarType : Type := Half | Float | Double | BFloat16 | Long.

(** What the hooks use of a tensor: whether it is attached to a computation
    graph, its scalar type, and its values. *)
Record Tensor : Type :=
  { requires_grad : bool; dtype : ScalarType; values : ndarray }.

(** [t.cpu()]: a copy in host memory, same values. *)
Definition cpu (t : Tensor) : Tensor := t.

Definition numpy_requires_grad : string :=
  "Can't call numpy() on Tensor that requires grad. Use tensor.detach().numpy() instead.".

Definition unsupported_scalar_type : string :=
  "Got unsupported ScalarType BFloat16".

(** [t.numpy()]: refused for a tensor that requires grad, and then for a
    scalar type numpy lacks. The refusals of torch for tensors that are not
    dense, or that carry a conjugate or negative bit, are not modelled. *)
Definition numpy (t : Tensor) : outcome ndarray :=
  if requires_grad t then Raise (RuntimeError numpy_requires_grad)
  else match dtype t with
       | BFloat16 => Raise (TypeError unsupported_scalar_type)
       | _ => Return (values t)
       end.

(** ** The callback object and its collaborators *)

Record MetricsLoggingCallback : Type :=
  { all_preds : list ndarray; all_labels : list ndarray }.

Definition __init__ : MetricsLoggingCallback :=
  {| all_preds := []; all_labels := [] |}.

(** mlflow's process-wide state: the tracking URI, the stack of active runs
    (innermost first), and the answers of the tracking backend to the
    requests still to come ([true]: served, [false]: unreachable; once the
    list is used up every request is served). *)
Record mlflow_state : Type :=
  { tracking_uri : string;
    active_run_stack : list string;
    backend : list bool }.

Record state : Type :=
  { this : MetricsLoggingCallback; mlflow : mlflow_state }.

(** [trainer.logger.experiment.tracking_uri] and [trainer.logger.run_id]. *)
Record MlflowClient : Type := { client_tracking_uri : string }.
Record MLFlowLogger : Type := { experiment : MlflowClient; run_id : string }.
Record Trainer : Type := { logger : MLFlowLogger }.

Inductive RunStatus : Type := FINISHED | FAILED.

Section Callback.

(** The metrics record and the fixed suite that computes it are the
    reporter's business (src/interpretability/evaluation.py). *)
Variable metrics : Type.
Variable metrics_suite : ndarray -> ndarray -> metrics.

Inductive event : Type :=
  | set_tracking_uri_call (uri : string)
  | active_run_call
  | start_run_call (run : string)
  | end_run_call (status : RunStatus)
  | calculate_metrics_call (labels probabilities : ndarray)
  | log_to_mlflow_call (attached : option string) (m : metrics).

(** ** The monad: state, exceptions and the record of calls *)

Definition M (A : Type) : Type := state -> outcome A * state * list event.

Definition ret {A} (a : A) : M A := fun s => (Return a, s, []).

Definition bind {A B} (c : M A) (k : A -> M B) : M B :=
  fun s =>
    match c s with
    | (Return a, s1, ev1) =>
        match k a s1 with
        | (r, s2, ev2) => (r, s2, ev1 ++ ev2)
        end
    | (Raise e, s1, ev1) => (Raise e, s1, ev1)
    end.

#[local] Instance M_ret : MRet M := @ret.
#[local] Instance M_bind : MBind M := fun A B k c => bind c k.

Definition raise {A} (e : exn) : M A := fun s => (Raise e, s, []).

Definition lift {A} (r : outcome A) : M A := fun s => (r, s, []).

Definition emit (e : event) : M unit := fun s => (Return tt, s, [e]).

Definition get_self : M MetricsLoggingCallback := fun s => (Return (this s), s, []).

Definition set_self (c : MetricsLoggingCallback) : M unit :=
  fun s => (Return tt, {| this := c; mlflow := mlflow s |}, []).

Definition get_mlflow : M mlflow_state := fun s => (Return (mlflow s), s, []).

Definition set_mlflow (m : mlflow_state) : M unit :=
  fun s => (Return tt, {| this := this s; mlflow := m |}, []).

(** [try: body finally: ...] in the shape a [with] block needs: [cleanup]
    runs on both exits and is told whether [body] raised; an exception of
    [body] is re-raised after it. *)
Definition with_exit {A} (body : M A) (cleanup : bool -> M unit) : M A :=
  fun s =>
    match body s with
    | (Return a, s1, ev1) =>
        match cleanup false s1 with
        | (Return _, s2, ev2) => (Return a, s2, ev1 ++ ev2)
        | (Raise e, s2, ev2) => (Raise e, s2, ev1 ++ ev2)
        end
    | (Raise e, s1, ev1) =>
        match cleanup true s1 with
        | (Return _, s2, ev2) => (Raise e, s2, ev1 ++ ev2)
        | (Raise e', s2, ev2) => (Raise e', s2, ev1 ++ ev2)
        end
    end.

(** ** mlflow *)

(** One request to the tracking backend: is it served? *)
Definition backend_request : M bool :=
  m ← get_mlflow;
  set_mlflow {| tracking_uri := tracking_uri m;
                active_run_stack := active_run_stack m;
                backend := tail (backend m) |};;
  mret (default true (head (backend m))).

Definition mlflow_set_tracking_uri (uri : string) : M unit :=
  emit (set_tracking_uri_call uri);;
  m ← get_mlflow;
  set_mlflow {| tracking_uri := uri;
                active_run_stack := active_run_stack m;
                backend := backend m |}.

Definition mlflow_active_run : M (option string) :=
  emit active_run_call;;
  m ← get_mlflow;
  mret (head (active_run_stack m)).

Definition run_already_active : string := "a run is already active".
Definition run_not_fetched : string := "the run could not be fetched from the tracking backend".

(** [mlflow.start_run(run_id=run)], entering: refused while another run is
    active (no [nested=True] here); otherwise the run is fetched from the
    backend and becomes the active run. *)
Definition mlflow_start_run (run : string) : M unit :=
  emit (start_run_call run);;
  m ← get_mlflow;
  match active_run_stack m with
  | _ :: _ => raise (MlflowException run_already_active)
  | [] =>
      served ← backend_request;
      if served : bool then
        m' ← get_mlflow;
        set_mlflow {| tracking_uri := tracking_uri m';
                      active_run_stack := run :: active_run_stack m';
                      backend := backend m' |}
      else raise (MlflowException run_not_fetched)
  end.

Definition run_not_terminated : string :=
  "the status of the run could not be written to the tracking backend".

(** [mlflow.end_run(status)]: the innermost active run is detached, then
    its status is written to the backend. *)
Definition mlflow_end_run (status : RunStatus) : M unit :=
  emit (end_run_call status);;
  m ← get_mlflow;
  set_mlflow {| tracking_uri := tracking_uri m;
                active_run_stack := tail (active_run_stack m);
                backend := backend m |};;
  served ← backend_request;
  if served : bool then mret tt
  else raise (MlflowException run_not_terminated).

(** [with mlflow.start_run(run_id=run): body]. Leaving the block ends the
    run, as FAILED when the body raised; an exception of that [end_run]
    replaces the one of the body. *)
Definition with_start_run {A} (run : string) (body : M A) : M A :=
  mlflow_start_run run;;
  with_exit body (fun raised => mlflow_end_run (if raised then FAILED else FINISHED)).

(** ** MetricsReporter *)

(** Modelled from the spec: [MetricsReporter.calculate_metrics], whose
    module (src/interpretability/evaluation.py) is not among the sources.
    A pure, deterministic computation of the metrics record from two
    arrays of the same length; [ShapeMismatchError] when the lengths
    differ. The record the reporter object keeps between its two calls is
    passed explicitly. *)
Definition calculate_metrics (labels probabilities : ndarray) : M metrics :=
  emit (calculate_metrics_call labels probabilities);;
  if bool_decide (len labels = len probabilities)
  then mret (metrics_suite labels probabilities)
  else raise ShapeMismatchError.

(** Modelled from the spec: [MetricsReporter.log_to_mlflow], from the same
    missing module. Writes the record into whatever run is attached in the
    calling context; [TrackingBackendError] when no run is attached or the
    backend is unreachable. *)
Definition log_to_mlflow (m : metrics) : M unit :=
  ml ← get_mlflow;
  emit (log_to_mlflow_call (head (active_run_stack ml)) m);;
  match active_run_stack ml with
  | [] => raise TrackingBackendError
  | _ :: _ =>
      served ← backend_request;
      if served : bool then mret tt else raise TrackingBackendError
  end.

(** ** MetricsLoggingCallback *)

(** [d[key]] on a dict. *)
Definition getitem (d : gmap string Tensor) (key : string) : M Tensor :=
  match d !! key with
  | Some v => mret v
  | None => raise (KeyError key)
  end.

(** [self.all_preds.append(x)] and [self.all_labels.append(x)]. *)
Definition all_preds_append (x : ndarray) : M unit :=
  self ← get_self;
  set_self {| all_preds := all_preds self ++ [x]; all_labels := all_labels self |}.

Definition all_labels_append (x : ndarray) : M unit :=
  self ← get_self;
  set_self {| all_preds := all_preds self; all_labels := all_labels self ++ [x] |}.

(** [on_test_batch_end(self, trainer, pl_module, outputs, batch, batch_idx,
    dataloader_idx)]; only [outputs] is read. *)
Definition on_test_batch_end (outputs : option (gmap string Tensor)) : M unit :=
  match outputs with
  | None => mret tt
  | Some outputs =>
      logits ← getitem outputs "logits";
      labels ← getitem outputs "labels";
      preds ← lift (numpy (cpu logits));
      all_preds_append preds;;
      labs ← lift (numpy (cpu labels));
      all_labels_append labs
  end.

(** The reporter block, written out twice in the source: a fresh reporter
    computes the metrics and logs them. *)
Definition report (all_labels' y_pred_proba : ndarray) : M unit :=
  m ← calculate_metrics all_labels' y_pred_proba;
  log_to_mlflow m.

(** [on_test_end(self, trainer, pl_module)]; [pl_module] is not read. *)
Definition on_test_end (trainer : Trainer) : M unit :=
  self ← get_self;
  all_preds' ← lift (np_concatenate (all_preds self));
  all_labels' ← lift (np_concatenate (all_labels self));
  let y_pred_proba := sigmoid all_preds' in
  mlflow_set_tracking_uri (client_tracking_uri (experiment (logger trainer)));;
  let run := run_id (logger trainer) in
  active ← mlflow_active_run;
  match active with
  | None => with_start_run run (report all_labels' y_pred_proba)
  | Some _ => report all_labels' y_pred_proba
  end;;
  set_self {| all_preds := []; all_labels := [] |}.

(** ** The evaluation loop *)

(** The engine calls [on_test_batch_end] once per batch, in visit order,
    and [on_test_end] after the last batch. An exception of a hook ends
    the pass. *)
Fixpoint test_batches (batches : list (option (gmap string Tensor))) : M unit :=
  match batches with
  | [] => mret tt
  | outputs :: rest => on_test_batch_end outputs;; test_batches rest
  end.

Definition test_pass (trainer : Trainer)
    (batches : list (option (gmap string Tensor))) : M unit :=
  test_batches batches;; on_test_end trainer.

(** ** Reading a record of calls *)

Definition calculate_calls (evs : list event) : list (ndarray * ndarray) :=
  omap (fun e => match e with
                 | calculate_metrics_call l p => Some (l, p)
                 | _ => None
                 end) evs.

Definition log_calls (evs : list event) : list (option string * metrics) :=
  omap (fun e => match e with
                 | log_to_mlflow_call r m => Some (r, m)
                 | _ => None
                 end) evs.

Definition start_run_calls (evs : list event) : list string :=
  omap (fun e => match e with
                 | start_run_call r => Some r
                 | _ => None
                 end) evs.

(** ** The batch output contract *)

(** A batch output honours the contract when it binds [logits] and
    [labels] to tensors that convert to host arrays; [host_arrays] gives
    the two arrays. *)
Definition host_arrays (outputs : gmap string Tensor) : option (ndarray * ndarray) :=
  match outputs !! "logits", outputs !! "labels" with
  | Some logits, Some labels =>
      match numpy (cpu logits), numpy (cpu labels) with
      | Return preds, Return labs => Some (preds, labs)
      | _, _ => None
      end
  | _, _ => None
  end.

(** The engine hands over a batch output honouring the contract, or the
    absence marker [None]. *)
Definition well_formed (outputs : option (gmap string Tensor)) : Prop :=
  match outputs with
  | None => True
  | Some o => is_Some (host_arrays o)
  end.

(** The array pairs a sequence of batches contributes, in visit order. *)
Definition gradable (batches : list (option (gmap string Tensor)))
    : list (ndarray * ndarray) :=
  omap (fun outputs => o ← outputs; host_arrays o) batches.

(** The instance after [preds] and [labs] were appended to its buffers. *)
Definition extended (s : state) (preds labs : list ndarray) : state :=
  {| this := {| all_preds := all_preds (this s) ++ preds;
                all_labels := all_labels (this s) ++ labs |};
     mlflow := mlflow s |}.

(** The two buffers hold the same number of arrays. *)
Definition paired (c : MetricsLoggingCallback) : Prop :=
  length (all_preds c) = length (all_labels c).

(** The backend serves every request still to come. *)
Definition served (m : mlflow_state) : Prop :=
  Forall (fun answer => answer = true) (backend m).

(** ** The end-to-end scenario *)

Definition detached (a : ndarray) : Tensor :=
  {| requires_grad := false; dtype := Float; values := a |}.

Definition batch_output (logits labels : ndarray) : option (gmap string Tensor) :=
  Some (<["logits" := detached logits]> (<["labels" := detached labels]> ∅)).

(** Three batches of size 1: logits [[2.0]], [[-1.0]], [[0.0]] and labels
    1, 0, 1. *)
Definition scenario : list (option (gmap string Tensor)) :=
  [ batch_output {| shape := [1; 1]; data := [2%R] |}
                 {| shape := [1]; data := [1%R] |};
    batch_output {| shape := [1; 1]; data := [(-1)%R] |}
                 {| shape := [1]; data := [0%R] |};
    batch_output {| shape := [1; 1]; data := [0%R] |}
                 {| shape := [1]; data := [1%R] |} ].

(** ** Answers of the backend *)

(** The answer of the backend to the [n]-th request from now, counting
    from 0. Each call of [start_run], [log_to_mlflow] and [end_run] takes
    one answer. *)
Definition answer (m : mlflow_state) (n : nat) : bool :=
  default true (backend m !! n).

(** The log step is reached and refused: a run is active and the next
    answer is a refusal, or no run is active, the run is fetched and the
    answer after that is a refusal. *)
Definition log_refused (m : mlflow_state) : Prop :=
  match active_run_stack m with
  | [] => answer m 0 = true /\ answer m 1 = false
  | _ :: _ => answer m 0 = false
  end.

(** ** Further readings *)

Definition end_run_calls (evs : list event) : list RunStatus :=
  omap (fun e => match e with
                 | end_run_call status => Some status
                 | _ => None
                 end) evs.

(** Is a batch output present? *)
Definition is_present (outputs : option (gmap string Tensor)) : bool :=
  match outputs with
  | Some _ => true
  | None => false
  end.

(** ** The outcome of a returning call *)

(** What a call of [on_test_end] that returns has done: both buffers were
    concatenated, the lengths agreed, the reporter block ran once in the
    run context the branch chose, and the instance was reset. *)
Definition returned_trace (trainer : Trainer) (stack : list string)
    (L P : ndarray) : list event :=
  set_tracking_uri_call (client_tracking_uri (experiment (logger trainer)))
  :: active_run_call
  :: match stack with
     | [] =>
         [start_run_call (run_id (logger trainer));
          calculate_metrics_call L (sigmoid P);
          log_to_mlflow_call (Some (run_id (logger trainer)))
            (metrics_suite L (sigmoid P));
          end_run_call FINISHED]
     | active :: _ =>
         [calculate_metrics_call L (sigmoid P);
          log_to_mlflow_call (Some active) (metrics_suite L (sigmoid P))]
     end.

Definition returned_mlflow (trainer : Trainer) (m : mlflow_state) : mlflow_state :=
  {| tracking_uri := client_tracking_uri (experiment (logger trainer));
     active_run_stack := active_run_stack m;
     backend := match active_run_stack m with
                | [] => tail (tail (tail (backend m)))
                | _ :: _ => tail (backend m)
                end |}.

(** ** Concrete inputs *)

(** A stand-in metrics suite: the number of graded examples. *)
Definition graded_examples (labels probabilities : ndarray) : nat := len labels.

Definition lightning_trainer : Trainer :=
  {| logger := {| experiment := {| client_tracking_uri := "http://127.0.0.1:5000" |};
                  run_id := "run-1" |} |}.

(** No run active, backend serving. *)
Definition idle : mlflow_state :=
  {| tracking_uri := ""; active_run_stack := []; backend := [] |}.

(** The run of [main] still active, backend serving. *)
Definition attached : mlflow_state :=
  {| tracking_uri := "http://127.0.0.1:5000";
     active_run_stack := ["run-1"];
     backend := [] |}.

(** The run of [main] still active, backend unreachable at the next
    request. *)
Definition unreachable : mlflow_state :=
  {| tracking_uri := "http://127.0.0.1:5000";
     active_run_stack := ["run-1"];
     backend := [false] |}.

Definition one_batch : list (option (gmap string Tensor)) :=
  [ batch_output {| shape := [2; 1]; data := [3; -3]%R |}
                 {| shape := [2]; data := [1; 0]%R |} ].

Definition first_output : gmap string Tensor :=
  <["logits" := detached {| shape := [1; 1]; data := [2%R] |}]>
    (<["labels" := detached {| shape := [1]; data := [1%R] |}]> ∅).

Definition fresh (m : mlflow_state) : state := {| this := __init__; mlflow := m |}.

(** The instance once the hooks of [one_batch] have run. *)
Definition buffered : MetricsLoggingCallback :=
  {| all_preds := [{| shape := [2; 1]; data := [3; -3]%R |}];
     all_labels := [{| shape := [2]; data := [1; 0]%R |}] |}.

(** ** Further concrete inputs *)

(** A tensor still attached to the computation graph. *)
Definition attached_to_graph (a : ndarray) : Tensor :=
  {| requires_grad := true; dtype := Float; values := a |}.

Definition without_labels : gmap string Tensor :=
  <["logits" := detached {| shape := [1; 1]; data := [2%R] |}]> ∅.

Definition with_graph_logits : gmap string Tensor :=
  <["logits" := attached_to_graph {| shape := [1; 1]; data := [2%R] |}]>
    (<["labels" := detached {| shape := [1]; data := [1%R] |}]> ∅).

Definition with_graph_labels : gmap string Tensor :=
  <["logits" := detached {| shape := [1; 1]; data := [2%R] |}]>
    (<["labels" := attached_to_graph {| shape := [1]; data := [1%R] |}]> ∅).

(** Detached labels of a scalar type numpy lacks. *)
Definition with_bfloat16_labels : gmap string Tensor :=
  <["logits" := detached {| shape := [1; 1]; data := [2%R] |}]>
    (<["labels" := {| requires_grad := false; dtype := BFloat16;
                      values := {| shape := [1]; data := [1%R] |} |}]> ∅).

(** The first batch output of the scenario with a [loss] entry added. *)
Definition with_loss : gmap string Tensor :=
  <["loss" := detached {| shape := []; data := [(1 / 2)%R] |}]> first_output.

(** Two buffered batches whose logits have one and two columns. *)
Definition ragged : MetricsLoggingCallback :=
  {| all_preds := [{| shape := [1; 1]; data := [2%R] |};
                   {| shape := [1; 2]; data := [0; 1]%R |}];
     all_labels := [{| shape := [1]; data := [1%R] |};
                    {| shape := [1]; data := [0%R] |}] |}.

Definition other_trainer : Trainer :=
  {| logger := {| experiment := {| client_tracking_uri := "http://127.0.0.1:5000" |};
                  run_id := "run-2" |} |}.

(** No run active, backend unreachable at the next request. *)
Definition refusing : mlflow_state :=
  {| tracking_uri := ""; active_run_stack := []; backend := [false] |}.

(** * Properties *)

(** ** Evaluating the hooks *)

Ltac unfold_M :=
  cbv [mbind mret M_bind M_ret bind ret raise lift emit
       get_self set_self get_mlflow set_mlflow].

Ltac exec :=
  cbv [on_test_end on_test_batch_end report with_start_run with_exit
       calculate_metrics log_to_mlflow getitem all_preds_append
       all_labels_append mlflow_set_tracking_uri mlflow_active_run
       mlflow_start_run mlflow_end_run backend_request];
  unfold_M; simpl.

(** Case analysis on everything [on_test_end] branches on once both
    concatenations are known: the run stack, the next two answers of the
    backend, and the length check of the reporter. *)
Ltac on_test_end_cases s L P :=
  destruct s as [?c [?uri [|?r ?stack] [|[] [|[] [|[] ?be]]]]]; simpl in *;
  destruct (bool_decide (len L = len (sigmoid P))); simpl.

(** ** Bounds on the exponential *)

Lemma exp_double_lower (x a b : R) :
  (0 <= a -> a <= exp x -> b <= a * a -> b <= exp (2 * x))%R.
Proof.
  intros Ha Hx Hb. replace (2 * x)%R with (x + x)%R by lra.
  rewrite exp_plus. nra.
Qed.

Lemma exp_double_upper (x a b : R) :
  (exp x <= a -> a * a <= b -> exp (2 * x) <= b)%R.
Proof.
  intros Hx Hb. replace (2 * x)%R with (x + x)%R by lra.
  rewrite exp_plus. pose proof (exp_pos x). nra.
Qed.

Lemma exp_small_lower : (100097656 / 100000000 <= exp (1 / 1024))%R.
Proof.
  pose proof (exp_ineq1 (1 / 1024)%R ltac:(lra)). lra.
Qed.

Lemma exp_small_upper : (exp (1 / 1024) <= 100097752 / 100000000)%R.
Proof.
  pose proof (exp_ineq1 (- (1 / 1024))%R ltac:(lra)) as H.
  rewrite exp_Ropp in H. pose proof (exp_pos (1 / 1024)) as Hpos.
  assert (exp (1 / 1024) * / exp (1 / 1024) = 1)%R as Hinv
    by (apply Rinv_r; lra).
  nra.
Qed.

(** Ten squarings take the bounds at [1 / 1024] to bounds at [1]. *)
Lemma exp_1_bounds : (271693577 / 100000000 <= exp 1 <= 271963065 / 100000000)%R.
Proof.
  pose proof exp_small_lower as L0. pose proof exp_small_upper as U0.
  assert (100195407 / 100000000 <= exp (1 / 512) <= 100195600 / 100000000)%R as [L1 U1].
  { replace (1 / 512)%R with (2 * (1 / 1024))%R by lra. split.
    - eapply exp_double_lower; [|exact L0|]; lra.
    - eapply exp_double_upper; [exact U0|]; lra. }
  clear L0 U0.
  assert (100391195 / 100000000 <= exp (1 / 256) <= 100391583 / 100000000)%R as [L2 U2].
  { replace (1 / 256)%R with (2 * (1 / 512))%R by lra. split.
    - eapply exp_double_lower; [|exact L1|]; lra.
    - eapply exp_double_upper; [exact U1|]; lra. }
  clear L1 U1.
  assert (100783920 / 100000000 <= exp (1 / 128) <= 100784700 / 100000000)%R as [L3 U3].
  { replace (1 / 128)%R with (2 * (1 / 256))%R by lra. split.
    - eapply exp_double_lower; [|exact L2|]; lra.
    - eapply exp_double_upper; [exact U2|]; lra. }
  clear L2 U2.
  assert (101573985 / 100000000 <= exp (1 / 64) <= 101575558 / 100000000)%R as [L4 U4].
  { replace (1 / 64)%R with (2 * (1 / 128))%R by lra. split.
    - eapply exp_double_lower; [|exact L3|]; lra.
    - eapply exp_double_upper; [exact U3|]; lra. }
  clear L3 U3.
  assert (103172744 / 100000000 <= exp (1 / 32) <= 103175940 / 100000000)%R as [L5 U5].
  { replace (1 / 32)%R with (2 * (1 / 64))%R by lra. split.
    - eapply exp_double_lower; [|exact L4|]; lra.
    - eapply exp_double_upper; [exact U4|]; lra. }
  clear L4 U4.
  assert (106446151 / 100000000 <= exp (1 / 16) <= 106452746 / 100000000)%R as [L6 U6].
  { replace (1 / 16)%R with (2 * (1 / 32))%R by lra. split.
    - eapply exp_double_lower; [|exact L5|]; lra.
    - eapply exp_double_upper; [exact U5|]; lra. }
  clear L5 U5.
  assert (113307830 / 100000000 <= exp (1 / 8) <= 113321872 / 100000000)%R as [L7 U7].
  { replace (1 / 8)%R with (2 * (1 / 16))%R by lra. split.
    - eapply exp_double_lower; [|exact L6|]; lra.
    - eapply exp_double_upper; [exact U6|]; lra. }
  clear L6 U6.
  assert (128386643 / 100000000 <= exp (1 / 4) <= 128418467 / 100000000)%R as [L8 U8].
  { replace (1 / 4)%R with (2 * (1 / 8))%R by lra. split.
    - eapply exp_double_lower; [|exact L7|]; lra.
    - eapply exp_double_upper; [exact U7|]; lra. }
  clear L7 U7.
  assert (164831301 / 100000000 <= exp (1 / 2) <= 164913027 / 100000000)%R as [L9 U9].
  { replace (1 / 2)%R with (2 * (1 / 4))%R by lra. split.
    - eapply exp_double_lower; [|exact L8|]; lra.
    - eapply exp_double_upper; [exact U8|]; lra. }
  clear L8 U8.
  assert (271693577 / 100000000 <= exp 1 <= 271963065 / 100000000)%R as [L10 U10].
  { replace 1%R with (2 * (1 / 2))%R by lra. split.
    - eapply exp_double_lower; [|exact L9|]; lra.
    - eapply exp_double_upper; [exact U9|]; lra. }
  clear L9 U9.
  split; assumption.
Qed.

(** ** Values of the logistic function *)

Lemma expit_0 : expit 0 = (1 / 2)%R.
Proof. unfold expit. rewrite Ropp_0, exp_0. lra. Qed.

Lemma expit_minus_1 : (Rabs (expit (-1) - 269 / 1000) < 5 / 10000)%R.
Proof.
  unfold expit. replace (- -1)%R with 1%R by lra.
  destruct exp_1_bounds as [Hlo Hhi].
  set (E := exp 1) in *. set (y := (1 / (1 + E))%R).
  assert (y * (1 + E) = 1)%R as Hy by (unfold y; field; lra).
  apply Rabs_def1; nra.
Qed.

Lemma expit_2 : (Rabs (expit 2 - 881 / 1000) < 5 / 10000)%R.
Proof.
  unfold expit. rewrite exp_Ropp. replace 2%R with (1 + 1)%R by lra.
  rewrite exp_plus. destruct exp_1_bounds as [Hlo Hhi].
  set (E := exp 1) in *.
  assert (7381 / 1000 <= E * E <= 7397 / 1000)%R as [Hlo2 Hhi2] by nra.
  set (E2 := (E * E)%R) in *. set (t := (/ E2)%R).
  assert (t * E2 = 1)%R as Ht by (unfold t; field; lra).
  assert (1351 / 10000 <= t <= 1355 / 10000)%R as [Htlo Hthi] by nra.
  set (y := (1 / (1 + t))%R).
  assert (y * (1 + t) = 1)%R as Hy by (unfold y; field; lra).
  apply Rabs_def1; nra.
Qed.

(** Over the reals the logistic function stays strictly between 0 and 1,
    and [sigmoid] keeps the shape of its argument. *)
Lemma expit_open_interval (x : R) : (0 < expit x < 1)%R.
Proof.
  unfold expit. pose proof (exp_pos (- x)) as Hpos.
  set (t := exp (- x)) in *. set (y := (1 / (1 + t))%R).
  assert (y * (1 + t) = 1)%R as Hy by (unfold y; field; lra).
  split; nra.
Qed.

Lemma sigmoid_shape (a : ndarray) :
  shape (sigmoid a) = shape a /\ length (data (sigmoid a)) = length (data a).
Proof. split; [reflexivity|]. simpl. apply length_map. Qed.

(** ** Concatenation along the batch axis *)

(** Cutting [m1 + m2] entries of [n] elements out of [d1 ++ d2], where
    [d1] holds exactly the first [m1] entries. *)
Lemma entries_app (n m1 m2 : nat) (d1 d2 : list R) :
  length d1 = m1 * n ->
  map (fun i => take n (drop (i * n) (d1 ++ d2))) (seq 0 (m1 + m2))
  = map (fun i => take n (drop (i * n) d1)) (seq 0 m1)
    ++ map (fun i => take n (drop (i * n) d2)) (seq 0 m2).
Proof.
  intros Hd. rewrite seq_app, map_app. f_equal.
  - apply map_ext_in. intros i Hi. apply in_seq in Hi.
    rewrite drop_app_le by nia.
    rewrite take_app_le; [reflexivity|]. rewrite length_drop. nia.
  - replace (seq (0 + m1) m2) with (map (fun j => m1 + j) (seq 0 m2))
      by (rewrite (Nat.add_comm 0 m1), <- fmap_add_seq; reflexivity).
    rewrite map_map. apply map_ext. intros j.
    rewrite drop_app_ge by nia. do 2 f_equal. nia.
Qed.

(** Arrays that share the trailing shape [k] are concatenated into an
    array of that trailing shape whose extent along axis 0 is the sum of
    theirs. *)
Lemma np_concatenate_uniform (arrs : list ndarray) (sizes k : list nat) :
  arrs <> [] ->
  Forall2 (fun a b => shape a = b :: k) arrs sizes ->
  np_concatenate arrs
  = Return {| shape := sum_list sizes :: k; data := concat (map data arrs) |}.
Proof.
  intros Hne Hsh. destruct Hsh as [|a b rest bs Ha Hrest]; [congruence|].
  unfold np_concatenate. rewrite Ha.
  assert (forallb (concat_compatible k) rest = true) as ->.
  { clear -Hrest. induction Hrest as [|a' b' rest bs Ha' _ IH]; [reflexivity|].
    simpl. rewrite IH. unfold concat_compatible. rewrite Ha'.
    rewrite bool_decide_eq_true_2 by reflexivity. reflexivity. }
  do 2 f_equal.
  assert (map len rest = bs) as Hlen.
  { clear -Hrest. induction Hrest as [|a' b' rest bs Ha' _ IH]; [reflexivity|].
    simpl. unfold len at 1. rewrite Ha', IH. reflexivity. }
  simpl. unfold len at 1. rewrite Ha, Hlen. reflexivity.
Qed.

(** The axis-0 entries of the concatenation are the entries of the
    operands, operand after operand. *)
Lemma rows_concatenated (arrs : list ndarray) (sizes k : list nat) :
  Forall2 (fun a b => shape a = b :: k) arrs sizes ->
  Forall well_shaped arrs ->
  rows {| shape := sum_list sizes :: k; data := concat (map data arrs) |}
  = concat (map rows arrs).
Proof.
  intros Hsh. induction Hsh as [|a b rest bs Ha _ IH]; intros Hwf.
  - reflexivity.
  - inversion Hwf as [|? ? Hwa Hwrest]; subst.
    specialize (IH Hwrest). unfold rows, row, row_size, len in *. simpl in *.
    unfold well_shaped in Hwa. rewrite Ha in *. simpl in *.
    rewrite entries_app by exact Hwa. rewrite IH. reflexivity.
Qed.

(** ** The end-of-pass hook *)

(** [np.concatenate] raises nothing but [ValueError]. *)
Lemma np_concatenate_raises (arrs : list ndarray) (e : exn) :
  np_concatenate arrs = Raise e -> exists msg, e = ValueError msg.
Proof.
  unfold np_concatenate. destruct arrs as [|a rest].
  - intros H. inversion H. eexists. reflexivity.
  - destruct (shape a) as [|n tl].
    + intros H. inversion H. eexists. reflexivity.
    + destruct (forallb (concat_compatible tl) rest); intros H; inversion H.
      eexists. reflexivity.
Qed.

Lemma on_test_end_returned (trainer : Trainer) (s s' : state)
    (evs : list event) (u : unit) :
  on_test_end trainer s = (Return u, s', evs) ->
  exists P L,
    np_concatenate (all_preds (this s)) = Return P
    /\ np_concatenate (all_labels (this s)) = Return L
    /\ len L = len (sigmoid P)
    /\ s' = {| this := __init__; mlflow := returned_mlflow trainer (mlflow s) |}
    /\ evs = returned_trace trainer (active_run_stack (mlflow s)) L P.
Proof.
  revert s' evs. exec.
  destruct (np_concatenate (all_preds (this s))) as [P|e]; simpl; [|discriminate].
  destruct (np_concatenate (all_labels (this s))) as [L|e]; simpl; [|discriminate].
  intros s' evs H. exists P, L. do 2 (split; [reflexivity|]).
  unfold returned_mlflow, returned_trace. revert H.
  destruct s as [c [uri [|r stack] [|[] [|[] [|[] be]]]]]; simpl;
    try case_bool_decide; simpl; intros Hrun; inversion Hrun; subst; auto.
Qed.

(** With both buffers concatenated, the lengths in agreement and the
    backend serving, [on_test_end] returns. *)
Lemma on_test_end_served (trainer : Trainer) (s : state) (P L : ndarray) :
  np_concatenate (all_preds (this s)) = Return P ->
  np_concatenate (all_labels (this s)) = Return L ->
  len L = len (sigmoid P) ->
  served (mlflow s) ->
  on_test_end trainer s
  = (Return tt,
     {| this := __init__; mlflow := returned_mlflow trainer (mlflow s) |},
     returned_trace trainer (active_run_stack (mlflow s)) L P).
Proof.
  intros HP HL Hlen Hserved. exec. rewrite HP. simpl. rewrite HL. simpl.
  unfold returned_mlflow, returned_trace, served in *.
  destruct s as [c [uri stack be]]; simpl in *.
  rewrite (bool_decide_eq_true_2 _ Hlen).
  destruct stack as [|r stack]; simpl.
  - destruct Hserved as [|b1 be1 -> Hserved]; simpl;
      rewrite ?(bool_decide_eq_true_2 _ Hlen); simpl; [reflexivity|].
    destruct Hserved as [|b2 be2 -> Hserved]; simpl; [reflexivity|].
    destruct Hserved as [|b3 be3 -> Hserved]; reflexivity.
  - destruct Hserved as [|b1 be1 -> Hserved]; reflexivity.
Qed.

(** Whatever the outcome, the run stack is left as it was found, and no
    run is entered while one is active. *)
Lemma on_test_end_run_stack (trainer : Trainer) (s : state) :
  match on_test_end trainer s with
  | (_, s', evs) =>
      active_run_stack (mlflow s') = active_run_stack (mlflow s)
      /\ (active_run_stack (mlflow s) <> [] -> start_run_calls evs = [])
      /\ length (calculate_calls evs) <= 1
      /\ length (log_calls evs) <= length (calculate_calls evs)
  end.
Proof.
  exec.
  destruct (np_concatenate (all_preds (this s))) as [P|e]; simpl;
    [|split; [reflexivity|split; [reflexivity|lia]]].
  destruct (np_concatenate (all_labels (this s))) as [L|e]; simpl;
    [|split; [reflexivity|split; [reflexivity|lia]]].
  on_test_end_cases s L P;
    (split; [reflexivity|split; [try reflexivity; intros []; reflexivity|lia]]).
Qed.

(** A call that raises leaves the instance as it was. *)
Lemma on_test_end_raised (trainer : Trainer) (s s' : state)
    (evs : list event) (e : exn) :
  on_test_end trainer s = (Raise e, s', evs) -> this s' = this s.
Proof.
  revert s' evs. exec.
  destruct (np_concatenate (all_preds (this s))) as [P|e1]; simpl;
    [|intros ? ? H; inversion H; reflexivity].
  destruct (np_concatenate (all_labels (this s))) as [L|e1]; simpl;
    [|intros ? ? H; inversion H; reflexivity].
  on_test_end_cases s L P; intros ? ? H; inversion H; reflexivity.
Qed.

(** [TrackingBackendError] comes from the reporter's log step only, which
    runs after both concatenations: the buffers were not empty. *)
Lemma on_test_end_tracking_error (trainer : Trainer) (s s' : state)
    (evs : list event) :
  on_test_end trainer s = (Raise TrackingBackendError, s', evs) ->
  all_preds (this s) <> [] /\ all_labels (this s) <> [].
Proof.
  revert s' evs. exec.
  destruct (np_concatenate (all_preds (this s))) as [P|e1] eqn:EP; simpl.
  - destruct (np_concatenate (all_labels (this s))) as [L|e2] eqn:EL; simpl.
    + intros _ _ _. split; intros E; rewrite E in *; discriminate.
    + intros ? ? Hrun. inversion Hrun; subst.
      apply np_concatenate_raises in EL as [msg ?]. discriminate.
  - intros ? ? Hrun. inversion Hrun; subst.
    apply np_concatenate_raises in EP as [msg ?]. discriminate.
Qed.

(** ** The per-batch hook *)

Lemma host_arrays_inv (o : gmap string Tensor) (preds labs : ndarray) :
  host_arrays o = Some (preds, labs) ->
  exists logits labels,
    o !! "logits" = Some logits /\ o !! "labels" = Some labels
    /\ numpy (cpu logits) = Return preds /\ numpy (cpu labels) = Return labs.
Proof.
  unfold host_arrays.
  destruct (o !! "logits") as [logits|]; [|discriminate].
  destruct (o !! "labels") as [labels|]; [|discriminate].
  destruct (numpy (cpu logits)) as [a|] eqn:Ea; [|discriminate].
  destruct (numpy (cpu labels)) as [b|] eqn:Eb; [|discriminate].
  intros H. inversion H; subst. exists logits, labels. auto.
Qed.

Lemma on_test_batch_end_present (o : gmap string Tensor)
    (preds labs : ndarray) (s : state) :
  host_arrays o = Some (preds, labs) ->
  on_test_batch_end (Some o) s = (Return tt, extended s [preds] [labs], []).
Proof.
  intros H. apply host_arrays_inv in H as (logits & labels & Hlg & Hlb & Hp & Hl).
  exec. rewrite Hlg. simpl. rewrite Hlb. simpl. rewrite Hp. simpl.
  rewrite Hl. reflexivity.
Qed.

(** The hook never touches mlflow and never calls out, whatever it is
    given. *)
Lemma on_test_batch_end_mlflow (outputs : option (gmap string Tensor)) (s : state) :
  match on_test_batch_end outputs s with
  | (_, s', evs) => mlflow s' = mlflow s /\ evs = []
  end.
Proof.
  destruct outputs as [o|]; exec; [|auto].
  destruct (o !! "logits") as [logits|]; simpl; [|auto].
  destruct (o !! "labels") as [labels|]; simpl; [|auto].
  destruct (numpy (cpu logits)) as [a|]; simpl; [|auto].
  destruct (numpy (cpu labels)) as [b|]; simpl; auto.
Qed.

Lemma extended_nil (s : state) : extended s [] [] = s.
Proof.
  destruct s as [[ps ls] m]. unfold extended. simpl.
  rewrite !app_nil_r. reflexivity.
Qed.

Lemma extended_extended (s : state) (p1 l1 p2 l2 : list ndarray) :
  extended (extended s p1 l1) p2 l2 = extended s (p1 ++ p2) (l1 ++ l2).
Proof. unfold extended. simpl. rewrite !app_assoc. reflexivity. Qed.

(** ** The evaluation loop *)

Lemma test_batches_well_formed (batches : list (option (gmap string Tensor)))
    (s : state) :
  Forall well_formed batches ->
  test_batches batches s
  = (Return tt, extended s (gradable batches).*1 (gradable batches).*2, []).
Proof.
  intros Hwf. revert s. induction Hwf as [|outputs rest Ho _ IH]; intros s.
  - simpl. unfold_M. rewrite extended_nil. reflexivity.
  - change (test_batches (outputs :: rest))
      with (on_test_batch_end outputs;; test_batches rest).
    destruct outputs as [o|].
    + destruct Ho as [[preds labs] Ho].
      unfold mbind, M_bind, bind.
      rewrite (on_test_batch_end_present o preds labs s Ho), IH.
      rewrite extended_extended. unfold gradable. simpl. rewrite Ho.
      reflexivity.
    + unfold mbind, M_bind, bind. simpl. unfold_M. rewrite IH. reflexivity.
Qed.

Lemma test_batches_mlflow (batches : list (option (gmap string Tensor)))
    (s : state) :
  match test_batches batches s with
  | (_, s', evs) => mlflow s' = mlflow s /\ evs = []
  end.
Proof.
  revert s. induction batches as [|outputs rest IH]; intros s.
  - simpl. unfold_M. auto.
  - change (test_batches (outputs :: rest))
      with (on_test_batch_end outputs;; test_batches rest).
    unfold mbind, M_bind, bind.
    pose proof (on_test_batch_end_mlflow outputs s) as H1.
    destruct (on_test_batch_end outputs s) as [[[u|e] s1] ev1].
    + destruct H1 as [Hm ->]. specialize (IH s1).
      destruct (test_batches rest s1) as [[r s2] ev2].
      destruct IH as [Hm2 ->]. split; [congruence|reflexivity].
    + exact H1.
Qed.

(** A pass that returns leaves a fresh instance, and an mlflow state that
    depends on the mlflow state it started from only. *)
Lemma test_pass_returned (trainer : Trainer)
    (batches : list (option (gmap string Tensor))) (s s' : state)
    (evs : list event) (u : unit) :
  test_pass trainer batches s = (Return u, s', evs) ->
  s' = {| this := __init__; mlflow := returned_mlflow trainer (mlflow s) |}.
Proof.
  unfold test_pass, mbind, M_bind, bind.
  pose proof (test_batches_mlflow batches s) as H1.
  destruct (test_batches batches s) as [[[u1|e] s1] ev1]; [|discriminate].
  destruct H1 as [Hm _].
  destruct (on_test_end trainer s1) as [[r s2] ev2] eqn:Hend.
  intros H. inversion H; subst.
  apply on_test_end_returned in Hend as (P & L & _ & _ & _ & -> & _).
  rewrite Hm. reflexivity.
Qed.

(** Whatever the outcome, the reporter is asked at most once, and only
    about the two concatenated buffers. *)
Lemma on_test_end_calls (trainer : Trainer) (s : state) (P L : ndarray) :
  np_concatenate (all_preds (this s)) = Return P ->
  np_concatenate (all_labels (this s)) = Return L ->
  match on_test_end trainer s with
  | (_, _, evs) =>
      (calculate_calls evs = [] \/ calculate_calls evs = [(L, sigmoid P)])
      /\ ((log_calls evs).*2 = []
          \/ (log_calls evs).*2 = [metrics_suite L (sigmoid P)])
  end.
Proof.
  intros HP HL. exec. rewrite HP. simpl. rewrite HL. simpl.
  on_test_end_cases s L P; auto.
Qed.

(** Every call of the hook appends, and evenly when it returns. *)
Lemma on_test_batch_end_growth (outputs : option (gmap string Tensor)) (s : state) :
  match on_test_batch_end outputs s with
  | (r, s', evs) =>
      evs = []
      /\ exists preds labs,
          s' = extended s preds labs
          /\ match r with
             | Return _ => length preds = length labs
             | Raise _ => length labs <= length preds <= S (length labs)
             end
  end.
Proof.
  destruct outputs as [o|]; exec.
  - destruct (o !! "logits") as [logits|]; simpl;
      [|split; [reflexivity|exists [], []; rewrite extended_nil; simpl; auto]].
    destruct (o !! "labels") as [labels|]; simpl;
      [|split; [reflexivity|exists [], []; rewrite extended_nil; simpl; auto]].
    destruct (numpy (cpu logits)) as [preds|e]; simpl;
      [|split; [reflexivity|exists [], []; rewrite extended_nil; simpl; auto]].
    destruct (numpy (cpu labels)) as [labs|e]; simpl.
    + split; [reflexivity|]. exists [preds], [labs]. auto.
    + split; [reflexivity|]. exists [preds], []. unfold extended. simpl.
      rewrite app_nil_r. auto.
  - split; [reflexivity|]. exists [], []. rewrite extended_nil. auto.
Qed.

(** ** The claims *)

(** C1, as amended. [on_test_end] resets both buffers when it returns,
    and it returns only when no step failed: both buffers concatenated,
    the lengths agreed and every request it made was served. When it
    raises, the instance is left as it was: the buffers are not reset,
    and past the concatenation step neither of them is empty. In
    particular, when the log step raises [TrackingBackendError], an error
    reaches the caller: that [TrackingBackendError], or, with no run
    active before, the [MlflowException] of the [end_run] that failed
    while it was propagating. *)
Theorem on_test_end_resets_on_return (trainer : Trainer) (s : state) :
  match on_test_end trainer s with
  | (Return _, s', _) =>
      all_preds (this s') = [] /\ all_labels (this s') = []
      /\ exists P L,
          np_concatenate (all_preds (this s)) = Return P
          /\ np_concatenate (all_labels (this s)) = Return L
          /\ len L = len (sigmoid P)
          /\ match active_run_stack (mlflow s) with
             | [] => answer (mlflow s) 0 = true /\ answer (mlflow s) 1 = true
                     /\ answer (mlflow s) 2 = true
             | _ :: _ => answer (mlflow s) 0 = true
             end
  | (Raise e, s', _) =>
      this s' = this s
      /\ forall P L,
          np_concatenate (all_preds (this s)) = Return P ->
          np_concatenate (all_labels (this s)) = Return L ->
          all_preds (this s') <> [] /\ all_labels (this s') <> []
          /\ (len L = len (sigmoid P) ->
              log_refused (mlflow s) ->
              (e = TrackingBackendError
               /\ (active_run_stack (mlflow s) <> []
                   \/ answer (mlflow s) 2 = true))
              \/ (e = MlflowException run_not_terminated
                  /\ active_run_stack (mlflow s) = []
                  /\ answer (mlflow s) 2 = false))
  end.
Proof.
  exec. unfold log_refused, answer.
  destruct (np_concatenate (all_preds (this s))) as [P|e1] eqn:HP; simpl;
    [|split; [reflexivity|discriminate]].
  destruct (np_concatenate (all_labels (this s))) as [L|e2] eqn:HL; simpl;
    [|split; [reflexivity|discriminate]].
  assert (all_preds (this s) <> [] /\ all_labels (this s) <> []) as Hne
    by (split; intros E; rewrite E in *; discriminate).
  destruct s as [c [uri [|r stack] [|[] [|[] [|[] be]]]]]; simpl in *;
    try case_bool_decide; simpl;
    first
      [ split; [reflexivity|]; split; [reflexivity|]; exists P, L;
        repeat split; first [reflexivity|assumption]
      | split; [reflexivity|]; intros P0 L0 HP0 HL0;
        inversion HP0; inversion HL0; subst;
        split; [apply Hne|]; split; [apply Hne|];
        intros Hlen Hrefused;
        first [ contradiction
              | destruct Hrefused; discriminate
              | discriminate
              | left; split; [reflexivity|]; first [left; discriminate|right; reflexivity]
              | right; auto ] ].
Qed.

(** C2, as amended. Whatever the outcome of [on_test_end], the stack of
    active runs is left as it was found, no run is entered while one is
    active, the reporter calculates at most once and logs at most once,
    and never logs without having calculated. When the call returns: with no run active, the calls made are exactly
    set-uri, query, enter [run_id], calculate, log (attached to
    [run_id]), leave; with a run active, exactly set-uri, query,
    calculate, log (attached to the active run). In both branches the
    reporter calculates once and then logs once. The call does return
    when both buffers concatenate, the lengths agree and the backend
    serves. *)
Theorem on_test_end_run_context (trainer : Trainer) (s : state) :
  match on_test_end trainer s with
  | (r, s', evs) =>
      active_run_stack (mlflow s') = active_run_stack (mlflow s)
      /\ (active_run_stack (mlflow s) <> [] -> start_run_calls evs = [])
      /\ length (calculate_calls evs) <= 1
      /\ length (log_calls evs) <= length (calculate_calls evs)
      /\ (r = Return tt ->
          exists P L,
            np_concatenate (all_preds (this s)) = Return P
            /\ np_concatenate (all_labels (this s)) = Return L
            /\ (active_run_stack (mlflow s) = [] ->
                evs = [set_tracking_uri_call
                         (client_tracking_uri (experiment (logger trainer)));
                       active_run_call;
                       start_run_call (run_id (logger trainer));
                       calculate_metrics_call L (sigmoid P);
                       log_to_mlflow_call (Some (run_id (logger trainer)))
                         (metrics_suite L (sigmoid P));
                       end_run_call FINISHED])
            /\ (forall active rest,
                  active_run_stack (mlflow s) = active :: rest ->
                  evs = [set_tracking_uri_call
                           (client_tracking_uri (experiment (logger trainer)));
                         active_run_call;
                         calculate_metrics_call L (sigmoid P);
                         log_to_mlflow_call (Some active)
                           (metrics_suite L (sigmoid P))])
            /\ calculate_calls evs = [(L, sigmoid P)]
            /\ (log_calls evs).*2 = [metrics_suite L (sigmoid P)])
      /\ (forall P L,
            np_concatenate (all_preds (this s)) = Return P ->
            np_concatenate (all_labels (this s)) = Return L ->
            len L = len (sigmoid P) ->
            served (mlflow s) ->
            r = Return tt)
  end.
Proof.
  pose proof (on_test_end_run_stack trainer s) as Hany.
  destruct (on_test_end trainer s) as [[r s'] evs] eqn:Hrun.
  destruct Hany as (Hstack & Hstart & Hcalc & Hlog).
  split; [exact Hstack|]. split; [exact Hstart|].
  split; [exact Hcalc|]. split; [exact Hlog|].
  split;
    [|intros P L HP HL Hlen Hserved;
      rewrite (on_test_end_served trainer s P L HP HL Hlen Hserved) in Hrun;
      inversion Hrun; reflexivity].
  intros ->.
  apply on_test_end_returned in Hrun as (P & L & HP & HL & _ & _ & ->).
  exists P, L. split; [exact HP|]. split; [exact HL|].
  unfold returned_trace.
  destruct (active_run_stack (mlflow s)) as [|a stack].
  - split; [reflexivity|]. split; [discriminate|]. split; reflexivity.
  - split; [discriminate|]. split; [|split; reflexivity].
    intros active rest E. inversion E; subst. reflexivity.
Qed.

(** C3. With both buffers empty, [on_test_end] raises the error of the
    concatenation step to its caller, before anything else is done. *)
Theorem on_test_end_no_data (trainer : Trainer) (s : state) :
  all_preds (this s) = [] ->
  all_labels (this s) = [] ->
  on_test_end trainer s = (Raise NoDataError, s, []).
Proof.
  intros Hp Hl. exec. rewrite Hp. reflexivity.
Qed.

(** C4. Let a pass start with empty buffers and observe batches that
    honour the contract, at least one of them present, batch [i] with
    logits of shape [b_i :: kp] and labels of shape [b_i :: kl]. Then all
    batch hooks return and both concatenations of [on_test_end] succeed;
    both results have [b_1 + ... + b_N] entries along axis 0, and the
    entries of each result are those of batch 1, then those of batch 2,
    and so on. These two arrays are what [on_test_end] works with: it
    never hands the reporter anything but the concatenated labels and the
    sigmoid of the concatenated logits, and with a serving backend the
    pass returns having handed them over once. *)
Theorem aggregated_arrays (trainer : Trainer)
    (batches : list (option (gmap string Tensor)))
    (sizes kp kl : list nat) (s : state) :
  this s = __init__ ->
  Forall well_formed batches ->
  gradable batches <> [] ->
  Forall2 (fun pl b => shape pl.1 = b :: kp /\ shape pl.2 = b :: kl)
    (gradable batches) sizes ->
  Forall (fun pl => well_shaped pl.1 /\ well_shaped pl.2) (gradable batches) ->
  exists s' P L,
    test_batches batches s = (Return tt, s', [])
    /\ np_concatenate (all_preds (this s')) = Return P
    /\ np_concatenate (all_labels (this s')) = Return L
    /\ len P = sum_list sizes
    /\ len L = sum_list sizes
    /\ rows P = concat (map rows (gradable batches).*1)
    /\ rows L = concat (map rows (gradable batches).*2)
    /\ match on_test_end trainer s' with
       | (_, _, evs) =>
           calculate_calls evs = [] \/ calculate_calls evs = [(L, sigmoid P)]
       end
    /\ (served (mlflow s) ->
        exists s'' evs,
          test_pass trainer batches s = (Return tt, s'', evs)
          /\ calculate_calls evs = [(L, sigmoid P)]).
Proof.
  intros Hinit Hwf Hne Hshape Hdata.
  set (g := gradable batches) in *.
  assert (Forall2 (fun a b => shape a = b :: kp) g.*1 sizes) as Hp.
  { apply Forall2_fmap_l. eapply Forall2_impl; [exact Hshape|].
    intros pl b [H _]. exact H. }
  assert (Forall2 (fun a b => shape a = b :: kl) g.*2 sizes) as Hl.
  { apply Forall2_fmap_l. eapply Forall2_impl; [exact Hshape|].
    intros pl b [_ H]. exact H. }
  assert (Forall well_shaped g.*1 /\ Forall well_shaped g.*2) as [Hwp Hwl].
  { split; apply Forall_fmap; eapply Forall_impl; try exact Hdata;
      intros pl [? ?]; assumption. }
  assert (g.*1 <> [] /\ g.*2 <> []) as [Hnp Hnl]
    by (destruct g; [congruence|split; discriminate]).
  pose proof (test_batches_well_formed batches s Hwf) as Hloop. fold g in Hloop.
  set (s1 := extended s g.*1 g.*2) in *.
  assert (np_concatenate (all_preds (this s1))
          = Return {| shape := sum_list sizes :: kp;
                      data := concat (map data g.*1) |}) as HP.
  { unfold s1, extended. rewrite Hinit. simpl.
    apply (np_concatenate_uniform _ sizes kp Hnp Hp). }
  assert (np_concatenate (all_labels (this s1))
          = Return {| shape := sum_list sizes :: kl;
                      data := concat (map data g.*2) |}) as HL.
  { unfold s1, extended. rewrite Hinit. simpl.
    apply (np_concatenate_uniform _ sizes kl Hnl Hl). }
  eexists s1, _, _. split; [exact Hloop|].
  split; [exact HP|]. split; [exact HL|].
  split; [reflexivity|]. split; [reflexivity|].
  split; [apply rows_concatenated; assumption|].
  split; [apply rows_concatenated; assumption|].
  split.
  - pose proof (on_test_end_calls trainer s1 _ _ HP HL) as Hc.
    destruct (on_test_end trainer s1) as [[r s2] evs]. exact (proj1 Hc).
  - intros Hserved. unfold test_pass, mbind, M_bind, bind. rewrite Hloop.
    rewrite (on_test_end_served trainer s1 _ _ HP HL eq_refl Hserved).
    eexists _, _. split; [reflexivity|].
    unfold returned_trace. simpl.
    destruct (active_run_stack (mlflow s)); reflexivity.
Qed.

(** C5. On the absence marker [on_test_batch_end] returns and changes
    nothing. On a batch output that binds [logits] and [labels] to
    convertible tensors it returns [None] after appending the converted
    logits to [all_preds] and the converted labels to [all_labels], one
    array each. *)
Theorem on_test_batch_end_well_formed (outputs : option (gmap string Tensor))
    (s : state) :
  well_formed outputs ->
  match outputs with
  | None => on_test_batch_end None s = (Return tt, s, [])
  | Some o =>
      exists logits labels preds labs,
        o !! "logits" = Some logits /\ o !! "labels" = Some labels
        /\ numpy (cpu logits) = Return preds
        /\ numpy (cpu labels) = Return labs
        /\ on_test_batch_end (Some o) s
           = (Return tt,
              {| this := {| all_preds := all_preds (this s) ++ [preds];
                            all_labels := all_labels (this s) ++ [labs] |};
                 mlflow := mlflow s |},
              [])
  end.
Proof.
  destruct outputs as [o|]; simpl; [|reflexivity].
  intros [[preds labs] Ho].
  pose proof (on_test_batch_end_present o preds labs s Ho) as Hrun.
  apply host_arrays_inv in Ho as (logits & labels & Hlg & Hlb & Hp & Hl).
  exists logits, labels, preds, labs. auto.
Qed.

(** C6, as amended. The probability array has the shape and the number
    of elements of the logits array, and in exact arithmetic every one of
    its elements lies strictly between 0 and 1. *)
Theorem sigmoid_shape_and_range (a : ndarray) :
  shape (sigmoid a) = shape a
  /\ length (data (sigmoid a)) = length (data a)
  /\ Forall (fun p => (0 < p < 1)%R) (data (sigmoid a)).
Proof.
  destruct (sigmoid_shape a) as [Hshape Hlength].
  split; [exact Hshape|]. split; [exact Hlength|].
  simpl. apply Forall_fmap, Forall_forall. intros x _.
  apply expit_open_interval.
Qed.

(** C7. After a call of [on_test_end] that returned, a second call with no
    batch in between raises the error of the concatenation step: the first
    call left both buffers empty. *)
Theorem on_test_end_twice (trainer trainer' : Trainer) (s s' : state)
    (evs : list event) :
  on_test_end trainer s = (Return tt, s', evs) ->
  on_test_end trainer' s' = (Raise NoDataError, s', []).
Proof.
  intros Hrun.
  apply on_test_end_returned in Hrun as (P & L & _ & _ & _ & -> & _).
  reflexivity.
Qed.

(** C8. Let a first pass over batches [A1] and a first pass over batches
    [A2] both return, from the same starting state. Then a second pass over
    [B] behaves the same after either: same outcome, same final state, same
    calls with the same arguments. When [B] honours the batch contract,
    every record the second pass hands to the log step is the metrics
    suite applied to the concatenation of the arrays of [B]. *)
Theorem no_cross_pass_leakage (trainer trainer' : Trainer)
    (A1 A2 B : list (option (gmap string Tensor)))
    (s s1 s2 : state) (ev1 ev2 : list event) :
  test_pass trainer A1 s = (Return tt, s1, ev1) ->
  test_pass trainer A2 s = (Return tt, s2, ev2) ->
  test_pass trainer' B s1 = test_pass trainer' B s2
  /\ (Forall well_formed B ->
      match test_pass trainer' B s1 with
      | (_, _, evs) =>
          forall m, In m (log_calls evs).*2 ->
            exists P L,
              np_concatenate (gradable B).*1 = Return P
              /\ np_concatenate (gradable B).*2 = Return L
              /\ m = metrics_suite L (sigmoid P)
      end).
Proof.
  intros H1 H2.
  apply test_pass_returned in H1. apply test_pass_returned in H2.
  split; [rewrite H1, H2; reflexivity|].
  intros HB. subst s1. unfold test_pass, mbind, M_bind, bind.
  rewrite (test_batches_well_formed B _ HB). unfold extended. simpl.
  set (s3 := {| this := _; mlflow := _ |}).
  destruct (np_concatenate (gradable B).*1) as [P|e] eqn:HP.
  - destruct (np_concatenate (gradable B).*2) as [L|e] eqn:HL.
    + pose proof (on_test_end_calls trainer' s3 P L HP HL) as Hc.
      destruct (on_test_end trainer' s3) as [[r s4] ev4].
      destruct Hc as [_ [Hc|Hc]]; simpl; rewrite Hc; intros m Hm.
      * destruct Hm.
      * destruct Hm as [<-|[]]. exists P, L. auto.
    + assert (on_test_end trainer' s3 = (Raise e, s3, [])) as ->.
      { exec. rewrite HP. simpl. rewrite HL. reflexivity. }
      simpl. intros m [].
  - assert (on_test_end trainer' s3 = (Raise e, s3, [])) as ->.
    { exec. rewrite HP. reflexivity. }
    simpl. intros m [].
Qed.

(** C9. Start with empty buffers and a serving backend, and run the three
    batch hooks of [scenario] and then [on_test_end]. The pass returns;
    the reporter is asked to calculate exactly once, on the labels
    [1, 0, 1] and on the probabilities [expit 2, expit (-1), expit 0],
    which are 0.881, 0.269 and 0.5 to three decimals; and the log step is
    called exactly once, with the record computed from these two arrays. *)
Theorem end_to_end_scenario (trainer : Trainer) (s : state) :
  this s = __init__ ->
  served (mlflow s) ->
  exists s' evs p1 p2 p3,
    let labels := {| shape := [3]; data := [1; 0; 1]%R |} in
    let probabilities := {| shape := [3; 1]; data := [p1; p2; p3] |} in
    test_pass trainer scenario s = (Return tt, s', evs)
    /\ p1 = expit 2 /\ p2 = expit (-1) /\ p3 = expit 0
    /\ (Rabs (p1 - 881 / 1000) < 5 / 10000)%R
    /\ (Rabs (p2 - 269 / 1000) < 5 / 10000)%R
    /\ p3 = (5 / 10)%R
    /\ calculate_calls evs = [(labels, probabilities)]
    /\ (log_calls evs).*2 = [metrics_suite labels probabilities]
    /\ this s' = __init__.
Proof.
  intros Hinit Hserved.
  assert (Forall well_formed scenario) as Hwf.
  { repeat constructor; eexists; reflexivity. }
  assert (gradable scenario
          = [({| shape := [1; 1]; data := [2%R] |},
              {| shape := [1]; data := [1%R] |});
             ({| shape := [1; 1]; data := [(-1)%R] |},
              {| shape := [1]; data := [0%R] |});
             ({| shape := [1; 1]; data := [0%R] |},
              {| shape := [1]; data := [1%R] |})]) as Hg by reflexivity.
  set (s1 := extended s (gradable scenario).*1 (gradable scenario).*2).
  assert (on_test_end trainer s1
          = (Return tt,
             {| this := __init__; mlflow := returned_mlflow trainer (mlflow s1) |},
             returned_trace trainer (active_run_stack (mlflow s1))
               {| shape := [3]; data := [1; 0; 1]%R |}
               {| shape := [3; 1]; data := [2; -1; 0]%R |})) as Hend.
  { apply on_test_end_served; [| |reflexivity|exact Hserved];
      unfold s1, extended; rewrite Hinit, Hg; reflexivity. }
  exists {| this := __init__; mlflow := returned_mlflow trainer (mlflow s1) |}.
  exists (returned_trace trainer (active_run_stack (mlflow s1))
            {| shape := [3]; data := [1; 0; 1]%R |}
            {| shape := [3; 1]; data := [2; -1; 0]%R |}).
  exists (expit 2), (expit (-1)), (expit 0). simpl.
  split.
  { unfold test_pass, mbind, M_bind, bind.
    rewrite (test_batches_well_formed scenario s Hwf). fold s1.
    rewrite Hend. reflexivity. }
  do 3 (split; [reflexivity|]).
  split; [exact expit_2|]. split; [exact expit_minus_1|].
  split; [rewrite expit_0; lra|].
  unfold returned_trace.
  destruct (active_run_stack (mlflow s)); repeat split; reflexivity.
Qed.


(** ** Further properties of the per-batch hook *)

(** X1. A batch output without [logits] raises [KeyError] for that key;
    one with [logits] but without [labels] raises [KeyError] for
    [labels], whatever the [logits] tensor is. Neither buffer changes. *)
Theorem on_test_batch_end_missing_key (o : gmap string Tensor) (s : state) :
  (o !! "logits" = None ->
   on_test_batch_end (Some o) s = (Raise (KeyError "logits"), s, []))
  /\ (is_Some (o !! "logits") -> o !! "labels" = None ->
      on_test_batch_end (Some o) s = (Raise (KeyError "labels"), s, [])).
Proof.
  split.
  - intros Hlg. exec. rewrite Hlg. reflexivity.
  - intros [logits Hlg] Hlb. exec. rewrite Hlg. simpl. rewrite Hlb. reflexivity.
Qed.

(** X2. When both keys are bound and the logits do not convert, the
    conversion error reaches the caller and neither buffer changes. *)
Theorem on_test_batch_end_unconvertible_logits (o : gmap string Tensor)
    (logits : Tensor) (e : exn) (s : state) :
  o !! "logits" = Some logits ->
  is_Some (o !! "labels") ->
  numpy (cpu logits) = Raise e ->
  on_test_batch_end (Some o) s = (Raise e, s, []).
Proof.
  intros Hlg [labels Hlb] He. exec. rewrite Hlg. simpl. rewrite Hlb. simpl.
  rewrite He. reflexivity.
Qed.

(** X3. When the logits convert and the labels do not, the conversion
    error reaches the caller after the logits were appended: [all_preds]
    has grown by one array, [all_labels] has not, and buffers that were
    paired are paired no more. *)
Theorem on_test_batch_end_unconvertible_labels (o : gmap string Tensor)
    (logits labels : Tensor) (preds : ndarray) (e : exn) (s : state) :
  o !! "logits" = Some logits ->
  o !! "labels" = Some labels ->
  numpy (cpu logits) = Return preds ->
  numpy (cpu labels) = Raise e ->
  on_test_batch_end (Some o) s
  = (Raise e,
     {| this := {| all_preds := all_preds (this s) ++ [preds];
                   all_labels := all_labels (this s) |};
        mlflow := mlflow s |},
     [])
  /\ (paired (this s) ->
      ~ paired {| all_preds := all_preds (this s) ++ [preds];
                  all_labels := all_labels (this s) |}).
Proof.
  intros Hlg Hlb Hp He. split.
  - exec. rewrite Hlg. simpl. rewrite Hlb. simpl. rewrite Hp. simpl.
    rewrite He. reflexivity.
  - unfold paired. simpl. rewrite length_app. simpl. lia.
Qed.

(** X4. The hook returns exactly on the absence marker and on the batch
    outputs that honour the contract. On any other output it raises:
    [KeyError] for [logits] when that key is missing; else [KeyError] for
    [labels] when that key is missing; else the error of the conversion
    of the logits; else the error of the conversion of the labels. *)
Theorem on_test_batch_end_outcomes (outputs : option (gmap string Tensor))
    (s : state) :
  match on_test_batch_end outputs s with
  | (Return _, _, _) => well_formed outputs
  | (Raise e, _, _) =>
      ~ well_formed outputs
      /\ exists o,
          outputs = Some o
          /\ ((o !! "logits" = None /\ e = KeyError "logits")
              \/ (is_Some (o !! "logits") /\ o !! "labels" = None
                  /\ e = KeyError "labels")
              \/ (exists logits labels,
                    o !! "logits" = Some logits /\ o !! "labels" = Some labels
                    /\ (numpy (cpu logits) = Raise e
                        \/ ((exists preds, numpy (cpu logits) = Return preds)
                            /\ numpy (cpu labels) = Raise e))))
  end.
Proof.
  destruct outputs as [o|]; [|exact I].
  exec. unfold well_formed, host_arrays.
  destruct (o !! "logits") as [logits|] eqn:Hlg; simpl;
    [|split; [intros [? ?]; discriminate|exists o; auto]].
  destruct (o !! "labels") as [labels|] eqn:Hlb; simpl;
    [|split; [intros [? ?]; discriminate|exists o; eauto 7]].
  destruct (numpy (cpu logits)) as [preds|e1] eqn:Hp; simpl;
    [|split; [intros [? ?]; discriminate|exists o; eauto 10]].
  destruct (numpy (cpu labels)) as [labs|e2] eqn:Hl; simpl;
    [|split; [intros [? ?]; discriminate|exists o; eauto 12]].
  eexists. reflexivity.
Qed.

(** X5. Only the two entries [logits] and [labels] of a batch output are
    read: outputs that agree on them are handled alike, whatever else
    they hold. *)
Theorem on_test_batch_end_reads_two_keys (o o' : gmap string Tensor) (s : state) :
  o !! "logits" = o' !! "logits" ->
  o !! "labels" = o' !! "labels" ->
  on_test_batch_end (Some o) s = on_test_batch_end (Some o') s.
Proof.
  intros Hlg Hlb. exec. rewrite Hlg, Hlb. reflexivity.
Qed.

(** ** Further properties of the evaluation loop *)

(** X6. Whatever the batch outputs are, the batch loop only ever appends
    to the two buffers, makes no call to mlflow or the reporter and
    leaves mlflow's state alone. When it returns it has appended as many
    arrays to one buffer as to the other; when a hook raised, [all_preds]
    may have received one array more than [all_labels], never more. *)
Theorem test_batches_append_only (batches : list (option (gmap string Tensor)))
    (s : state) :
  match test_batches batches s with
  | (r, s', evs) =>
      evs = []
      /\ exists preds labs,
          s' = extended s preds labs
          /\ match r with
             | Return _ => length preds = length labs
             | Raise _ => length labs <= length preds <= S (length labs)
             end
  end.
Proof.
  revert s. induction batches as [|outputs rest IH]; intros s.
  - simpl. unfold_M. split; [reflexivity|]. exists [], [].
    rewrite extended_nil. auto.
  - change (test_batches (outputs :: rest))
      with (on_test_batch_end outputs;; test_batches rest).
    unfold mbind, M_bind, bind.
    pose proof (on_test_batch_end_growth outputs s) as H1.
    destruct (on_test_batch_end outputs s) as [[[u|e] s1] ev1].
    + destruct H1 as (-> & p1 & l1 & -> & Hlen1).
      specialize (IH (extended s p1 l1)).
      destruct (test_batches rest (extended s p1 l1)) as [[r s2] ev2].
      destruct IH as (-> & p2 & l2 & -> & Hlen2).
      split; [reflexivity|]. exists (p1 ++ p2), (l1 ++ l2).
      split; [apply extended_extended|].
      rewrite !length_app. destruct r; lia.
    + exact H1.
Qed.

(** X7. Absence markers are transparent for a whole pass: removing them
    from the sequence of batch outputs changes neither the outcome, nor
    the final state, nor the calls made. *)
Theorem test_pass_skips_absent (trainer : Trainer)
    (batches : list (option (gmap string Tensor))) (s : state) :
  test_pass trainer (List.filter is_present batches) s
  = test_pass trainer batches s.
Proof.
  unfold test_pass, mbind, M_bind, bind.
  assert (forall s0, test_batches (List.filter is_present batches) s0
                     = test_batches batches s0) as ->; [|reflexivity].
  induction batches as [|outputs rest IH]; intros s0; [reflexivity|].
  destruct outputs as [o|]; cbn [List.filter is_present test_batches].
  - unfold mbind, M_bind, bind.
    destruct (on_test_batch_end (Some o) s0) as [[[u|e] s1] ev1];
      [rewrite IH|]; reflexivity.
  - rewrite IH. unfold mbind, M_bind, bind, on_test_batch_end, mret, M_ret, ret.
    destruct (test_batches rest s0) as [[r s2] ev2]. reflexivity.
Qed.

(** X13. A pass whose [on_test_end] raises leaks into the next one. Start
    with empty buffers and let a pass over contract-honouring batches [A]
    end with an exception. Then the arrays of [A] are still buffered, and
    after the batch hooks of the next pass over [B] the buffers hold the
    arrays of [A] followed by those of [B]: these are what the next
    [on_test_end] concatenates. *)
Theorem failed_pass_leaks (trainer : Trainer)
    (A B : list (option (gmap string Tensor))) (s s1 : state)
    (e : exn) (ev1 : list event) :
  this s = __init__ ->
  Forall well_formed A ->
  Forall well_formed B ->
  test_pass trainer A s = (Raise e, s1, ev1) ->
  all_preds (this s1) = (gradable A).*1
  /\ all_labels (this s1) = (gradable A).*2
  /\ exists s2,
      test_batches B s1 = (Return tt, s2, [])
      /\ all_preds (this s2) = (gradable A).*1 ++ (gradable B).*1
      /\ all_labels (this s2) = (gradable A).*2 ++ (gradable B).*2.
Proof.
  intros Hinit HA HB. unfold test_pass, mbind, M_bind, bind.
  rewrite (test_batches_well_formed A s HA).
  destruct (on_test_end trainer _) as [[[u|e'] s'] ev'] eqn:Hend;
    intros Hrun; inversion Hrun; subst.
  apply on_test_end_raised in Hend.
  unfold extended in Hend. rewrite Hinit in Hend. simpl in Hend.
  rewrite Hend. simpl. split; [reflexivity|]. split; [reflexivity|].
  eexists. split; [apply (test_batches_well_formed B s1 HB)|].
  unfold extended. simpl. rewrite Hend. simpl. split; reflexivity.
Qed.

(** ** Further properties of the end-of-pass hook *)

(** Two operands whose trailing shapes differ cannot be concatenated. *)
Lemma np_concatenate_ragged (arrs : list ndarray) (a b : ndarray) :
  In a arrs -> In b arrs -> tl (shape a) <> tl (shape b) ->
  exists msg, np_concatenate arrs = Raise (ValueError msg).
Proof.
  intros Ha Hb Hne. unfold np_concatenate.
  destruct arrs as [|h rest]; [destruct Ha|].
  destruct (shape h) as [|n k] eqn:Hh; [eexists; reflexivity|].
  destruct (forallb (concat_compatible k) rest) eqn:Hall; [|eexists; reflexivity].
  exfalso. apply Hne.
  assert (forall x, In x (h :: rest) -> tl (shape x) = k) as Hk.
  { intros x [<-|Hx]; [rewrite Hh; reflexivity|].
    pose proof (proj1 (forallb_forall _ _) Hall x Hx) as Hc.
    unfold concat_compatible in Hc.
    destruct (shape x) as [|m kx]; [discriminate|].
    apply bool_decide_eq_true_1 in Hc. exact Hc. }
  rewrite (Hk a Ha), (Hk b Hb). reflexivity.
Qed.

(** X8. When two arrays buffered in [all_preds], or two buffered in
    [all_labels], differ in their trailing shape, [on_test_end] raises
    the [ValueError] of the concatenation before any call to mlflow or
    the reporter, and the buffers keep their content. *)
Theorem on_test_end_ragged (trainer : Trainer) (s : state) (a b : ndarray) :
  (In a (all_preds (this s)) /\ In b (all_preds (this s)))
  \/ (In a (all_labels (this s)) /\ In b (all_labels (this s))) ->
  tl (shape a) <> tl (shape b) ->
  exists msg, on_test_end trainer s = (Raise (ValueError msg), s, []).
Proof.
  intros Hin Hne. exec.
  destruct (np_concatenate (all_preds (this s))) as [P|e] eqn:HP; simpl.
  - destruct Hin as [[Ha Hb]|[Ha Hb]].
    + destruct (np_concatenate_ragged _ a b Ha Hb Hne) as [msg Hmsg].
      congruence.
    + destruct (np_concatenate_ragged _ a b Ha Hb Hne) as [msg ->].
      exists msg. reflexivity.
  - apply np_concatenate_raises in HP as [msg ->]. exists msg. reflexivity.
Qed.

(** X9. Either a concatenation raised, and then [on_test_end] raises that
    [ValueError] having called nothing and changed nothing; or both
    succeeded, and then, whatever happens next, mlflow's tracking URI has
    been set to the URI of the trainer's logger and the first two calls
    were set-uri and the query for the active run. *)
Theorem on_test_end_tracking_stage (trainer : Trainer) (s : state) :
  match on_test_end trainer s with
  | (r, s', evs) =>
      (exists msg, r = Raise (ValueError msg) /\ s' = s /\ evs = []
         /\ (np_concatenate (all_preds (this s)) = Raise (ValueError msg)
             \/ np_concatenate (all_labels (this s)) = Raise (ValueError msg)))
      \/ (exists P L,
            np_concatenate (all_preds (this s)) = Return P
            /\ np_concatenate (all_labels (this s)) = Return L
            /\ tracking_uri (mlflow s')
               = client_tracking_uri (experiment (logger trainer))
            /\ take 2 evs
               = [set_tracking_uri_call
                    (client_tracking_uri (experiment (logger trainer)));
                  active_run_call])
  end.
Proof.
  exec.
  destruct (np_concatenate (all_preds (this s))) as [P|e] eqn:HP; simpl.
  - destruct (np_concatenate (all_labels (this s))) as [L|e] eqn:HL; simpl.
    + on_test_end_cases s L P; right; exists P, L; auto.
    + left. apply np_concatenate_raises in HL as [msg ->]. exists msg. auto.
  - left. apply np_concatenate_raises in HP as [msg ->]. exists msg. auto.
Qed.

(** X10. While a run is active, [trainer.logger.run_id] plays no part:
    trainers whose loggers differ in the run id only get the same
    outcome, state and calls, and every call of the log step is attached
    to the active run. *)
Theorem on_test_end_active_run_wins (trainer trainer' : Trainer) (s : state) :
  client_tracking_uri (experiment (logger trainer))
  = client_tracking_uri (experiment (logger trainer')) ->
  active_run_stack (mlflow s) <> [] ->
  on_test_end trainer s = on_test_end trainer' s
  /\ match on_test_end trainer s with
     | (_, _, evs) =>
         forall attached m, In (attached, m) (log_calls evs) ->
           attached = head (active_run_stack (mlflow s))
     end.
Proof.
  intros Huri Hactive. exec. rewrite Huri.
  destruct (np_concatenate (all_preds (this s))) as [P|e]; simpl;
    [|split; [reflexivity|intros ? ? []]].
  destruct (np_concatenate (all_labels (this s))) as [L|e]; simpl;
    [|split; [reflexivity|intros ? ? []]].
  on_test_end_cases s L P; try congruence;
    (split; [reflexivity|]); simpl; intros attached m Hin;
    repeat (destruct Hin as [Hin|Hin]; [inversion Hin; reflexivity|]);
    destruct Hin.
Qed.

(** X11. [on_test_end] ends no run it did not enter. With a run active it
    makes no end-run call. Otherwise it makes at most one, after its
    start-run call. The status is FINISHED when the block under the run
    returned; the call then returns, unless writing that status fails,
    which raises the [MlflowException] of [end_run]. The status is FAILED
    when the block raised, and then the call raises. A call that returns
    with no run active before has ended its run as FINISHED. *)
Theorem on_test_end_ends_own_run (trainer : Trainer) (s : state) :
  match on_test_end trainer s with
  | (r, _, evs) =>
      (active_run_stack (mlflow s) <> [] -> end_run_calls evs = [])
      /\ length (end_run_calls evs) <= length (start_run_calls evs)
      /\ (end_run_calls evs = []
          \/ (end_run_calls evs = [FINISHED]
              /\ (r = Return tt
                  \/ r = Raise (MlflowException run_not_terminated)))
          \/ (end_run_calls evs = [FAILED] /\ exists e, r = Raise e))
      /\ (active_run_stack (mlflow s) = [] -> r = Return tt ->
          end_run_calls evs = [FINISHED])
  end.
Proof.
  exec.
  destruct (np_concatenate (all_preds (this s))) as [P|e]; simpl;
    [|repeat split; auto; discriminate].
  destruct (np_concatenate (all_labels (this s))) as [L|e]; simpl;
    [|repeat split; auto; discriminate].
  on_test_end_cases s L P;
    (split; [try reflexivity; intros []; reflexivity|]);
    (split; [simpl; lia|]);
    (split; [|try discriminate; auto]); eauto 6.
Qed.

(** X12. With no run active, when the backend refuses the request that
    fetches the run, [on_test_end] raises the [MlflowException] of
    [start_run]: the reporter is never called, no run is left active, and
    the buffers keep their content. *)
Theorem on_test_end_start_run_refused (trainer : Trainer) (s : state)
    (P L : ndarray) (rest : list bool) :
  np_concatenate (all_preds (this s)) = Return P ->
  np_concatenate (all_labels (this s)) = Return L ->
  active_run_stack (mlflow s) = [] ->
  backend (mlflow s) = false :: rest ->
  on_test_end trainer s
  = (Raise (MlflowException run_not_fetched),
     {| this := this s;
        mlflow := {| tracking_uri := client_tracking_uri (experiment (logger trainer));
                     active_run_stack := [];
                     backend := rest |} |},
     [set_tracking_uri_call (client_tracking_uri (experiment (logger trainer)));
      active_run_call;
      start_run_call (run_id (logger trainer))]).
Proof.
  intros HP HL Hstack Hbackend. exec. rewrite HP. simpl. rewrite HL. simpl.
  destruct s as [c [uri stack be]]; simpl in *. subst. reflexivity.
Qed.

End Callback.

Arguments set_tracking_uri_call {metrics}.
Arguments active_run_call {metrics}.
Arguments start_run_call {metrics}.
Arguments end_run_call {metrics}.
Arguments calculate_metrics_call {metrics}.
Arguments log_to_mlflow_call {metrics}.

(** * Concrete runs *)

(** C1, counterexample. One batch is observed, then the log step of
    [on_test_end] finds the backend unreachable: [TrackingBackendError]
    reaches the caller, and both buffers still hold the batch. *)
Lemma publish_failure_keeps_buffers :
  test_batches nat one_batch (fresh unreachable)
  = (Return tt, {| this := buffered; mlflow := unreachable |}, [])
  /\ on_test_end nat graded_examples lightning_trainer
       {| this := buffered; mlflow := unreachable |}
     = (Raise TrackingBackendError,
        {| this := buffered; mlflow := attached |},
        [set_tracking_uri_call "http://127.0.0.1:5000";
         active_run_call;
         calculate_metrics_call
           {| shape := [2]; data := [1; 0]%R |}
           (sigmoid {| shape := [2; 1]; data := [3; -3]%R |});
         log_to_mlflow_call (Some "run-1") 2])
  /\ all_preds buffered <> [] /\ all_labels buffered <> [].
Proof. repeat split; try reflexivity; discriminate. Qed.

(** C1, at the same input. *)
Lemma on_test_end_resets_on_return_witness :
  this (on_test_end nat graded_examples lightning_trainer
          {| this := buffered; mlflow := unreachable |}).1.2 = buffered
  /\ all_preds buffered <> [] /\ all_labels buffered <> []
  /\ ((TrackingBackendError = TrackingBackendError
       /\ (active_run_stack unreachable <> [] \/ answer unreachable 2 = true))
      \/ (TrackingBackendError = MlflowException run_not_terminated
          /\ active_run_stack unreachable = []
          /\ answer unreachable 2 = false)).
Proof.
  pose proof (on_test_end_resets_on_return nat graded_examples
                lightning_trainer {| this := buffered; mlflow := unreachable |}) as H.
  change (on_test_end nat graded_examples lightning_trainer
            {| this := buffered; mlflow := unreachable |})
    with (@Raise unit TrackingBackendError,
          {| this := buffered; mlflow := attached |},
          [set_tracking_uri_call "http://127.0.0.1:5000";
           active_run_call;
           calculate_metrics_call
             {| shape := [2]; data := [1; 0]%R |}
             (sigmoid {| shape := [2; 1]; data := [3; -3]%R |});
           @log_to_mlflow_call nat (Some "run-1") 2]) in *.
  destruct H as [Hsame Hpast]. split; [exact Hsame|].
  destruct (Hpast {| shape := [2; 1]; data := [3; -3]%R |}
                  {| shape := [2]; data := [1; 0]%R |} eq_refl eq_refl)
    as (Hp & Hl & Herr).
  split; [exact Hp|]. split; [exact Hl|].
  apply Herr; reflexivity.
Defined.

(** C2, counterexample. No run is active and the backend refuses to fetch
    the run: [on_test_end] raises after the start-run call, and the
    reporter has neither calculated nor logged. *)
Lemma start_run_refused_skips_reporter :
  on_test_end nat graded_examples lightning_trainer
    {| this := buffered; mlflow := refusing |}
  = (Raise (MlflowException run_not_fetched),
     {| this := buffered;
        mlflow := {| tracking_uri := "http://127.0.0.1:5000";
                     active_run_stack := [];
                     backend := [] |} |},
     [set_tracking_uri_call "http://127.0.0.1:5000";
      active_run_call;
      start_run_call "run-1"])
  /\ calculate_calls nat
       (on_test_end nat graded_examples lightning_trainer
          {| this := buffered; mlflow := refusing |}).2 = []
  /\ log_calls nat
       (on_test_end nat graded_examples lightning_trainer
          {| this := buffered; mlflow := refusing |}).2 = [].
Proof. repeat split; reflexivity. Qed.

(** C2, with no run active and with the run of [main] active. *)
Lemma on_test_end_run_context_witness :
  (on_test_end nat graded_examples lightning_trainer
     {| this := buffered; mlflow := idle |}).2
  = [set_tracking_uri_call "http://127.0.0.1:5000";
     active_run_call;
     start_run_call "run-1";
     calculate_metrics_call
       {| shape := [2]; data := [1; 0]%R |}
       (sigmoid {| shape := [2; 1]; data := [3; -3]%R |});
     log_to_mlflow_call (Some "run-1") 2;
     end_run_call FINISHED]
  /\ start_run_calls nat
       (on_test_end nat graded_examples lightning_trainer
          {| this := buffered; mlflow := attached |}).2 = [].
Proof.
  split.
  - pose proof (on_test_end_run_context nat graded_examples lightning_trainer
                  {| this := buffered; mlflow := idle |}) as H.
    destruct (on_test_end nat graded_examples lightning_trainer
                {| this := buffered; mlflow := idle |}) as [[r s'] evs].
    destruct H as (_ & _ & _ & _ & Hret & Hprogress).
    assert (r = Return tt) as Hr.
    { apply (Hprogress {| shape := [2; 1]; data := [3; -3]%R |}
                       {| shape := [2]; data := [1; 0]%R |});
        [reflexivity|reflexivity|reflexivity|constructor]. }
    destruct (Hret Hr) as (P & L & HP & HL & Hidle & _).
    inversion HP; inversion HL; subst. exact (Hidle eq_refl).
  - pose proof (on_test_end_run_context nat graded_examples lightning_trainer
                  {| this := buffered; mlflow := attached |}) as H.
    destruct (on_test_end nat graded_examples lightning_trainer
                {| this := buffered; mlflow := attached |}) as [[r s'] evs].
    destruct H as (_ & Hstart & _). apply Hstart. discriminate.
Defined.

(** C3, on a fresh instance. *)
Lemma on_test_end_no_data_witness :
  on_test_end nat graded_examples lightning_trainer (fresh attached)
  = (Raise NoDataError, fresh attached, []).
Proof. apply on_test_end_no_data; reflexivity. Defined.

(** C4, on the three batches of the scenario. *)
Lemma aggregated_arrays_witness :
  exists s' P L,
    test_batches nat scenario (fresh attached) = (Return tt, s', [])
    /\ np_concatenate (all_preds (this s')) = Return P
    /\ np_concatenate (all_labels (this s')) = Return L
    /\ len P = 3
    /\ len L = 3
    /\ rows P = [[2%R]; [(-1)%R]; [0%R]]
    /\ rows L = [[1%R]; [0%R]; [1%R]]
    /\ match on_test_end nat graded_examples lightning_trainer s' with
       | (_, _, evs) =>
           calculate_calls nat evs = []
           \/ calculate_calls nat evs = [(L, sigmoid P)]
       end
    /\ (served attached ->
        exists s'' evs,
          test_pass nat graded_examples lightning_trainer scenario
            (fresh attached) = (Return tt, s'', evs)
          /\ calculate_calls nat evs = [(L, sigmoid P)]).
Proof.
  apply (aggregated_arrays nat graded_examples lightning_trainer scenario
           [1; 1; 1] [1] [] (fresh attached)).
  - reflexivity.
  - repeat constructor; eexists; reflexivity.
  - discriminate.
  - repeat constructor.
  - repeat constructor.
Defined.

(** C6, counterexample. In binary64 arithmetic the sigmoid of the finite
    logits 40 and -800 is exactly 1 and exactly 0: the exponential of -40
    is too small to change 1 when added to it, and the exponential of
    800 overflows. Neither element is strictly between 0 and 1. *)
Lemma sigmoid_binary64_saturates :
  forallb finite [40; -800]%float = true
  /\ sigmoid_binary64 exp_binary64 [40; -800]%float = [1; 0]%float
  /\ existsb strictly_inside
       (sigmoid_binary64 exp_binary64 [40; -800]%float) = false
  /\ expit_binary64 (fun _ => exp_minus_40) 40%float = 1%float.
Proof. repeat split; vm_compute; reflexivity. Qed.

(** C6, on the logits of the scenario. *)
Lemma sigmoid_shape_and_range_witness :
  shape (sigmoid {| shape := [3; 1]; data := [2; -1; 0]%R |}) = [3; 1]
  /\ length (data (sigmoid {| shape := [3; 1]; data := [2; -1; 0]%R |})) = 3
  /\ Forall (fun p => (0 < p < 1)%R)
       (data (sigmoid {| shape := [3; 1]; data := [2; -1; 0]%R |})).
Proof.
  exact (sigmoid_shape_and_range {| shape := [3; 1]; data := [2; -1; 0]%R |}).
Defined.

(** C5, on the first batch of the scenario. *)
Lemma on_test_batch_end_well_formed_witness :
  exists logits labels preds labs,
    first_output !! "logits" = Some logits
    /\ first_output !! "labels" = Some labels
    /\ numpy (cpu logits) = Return preds
    /\ numpy (cpu labels) = Return labs
    /\ on_test_batch_end nat (Some first_output) (fresh attached)
       = (Return tt,
          {| this := {| all_preds := [] ++ [preds]; all_labels := [] ++ [labs] |};
             mlflow := attached |},
          []).
Proof.
  apply (on_test_batch_end_well_formed nat (Some first_output) (fresh attached)).
  eexists. reflexivity.
Defined.

(** C7, after the pass over [one_batch]. *)
Lemma on_test_end_twice_witness :
  on_test_end nat graded_examples lightning_trainer (fresh attached)
  = (Raise NoDataError, fresh attached, []).
Proof.
  eapply (on_test_end_twice nat graded_examples lightning_trainer
            lightning_trainer {| this := buffered; mlflow := attached |}).
  reflexivity.
Defined.

(** C8, with [scenario] and [one_batch] as first passes. *)
Lemma no_cross_pass_leakage_witness :
  test_pass nat graded_examples lightning_trainer scenario (fresh attached)
  = test_pass nat graded_examples lightning_trainer scenario (fresh attached)
  /\ (Forall well_formed scenario ->
      match test_pass nat graded_examples lightning_trainer scenario
              (fresh attached) with
      | (_, _, evs) =>
          forall m, In m (log_calls nat evs).*2 ->
            exists P L,
              np_concatenate (gradable scenario).*1 = Return P
              /\ np_concatenate (gradable scenario).*2 = Return L
              /\ m = graded_examples L (sigmoid P)
      end).
Proof.
  eapply (no_cross_pass_leakage nat graded_examples lightning_trainer
            lightning_trainer one_batch scenario scenario (fresh attached)).
  - reflexivity.
  - reflexivity.
Defined.

(** C9, with the run of [main] active. *)
Lemma end_to_end_scenario_witness :
  exists s' evs p1 p2 p3,
    test_pass nat graded_examples lightning_trainer scenario (fresh attached)
    = (Return tt, s', evs)
    /\ p1 = expit 2 /\ p2 = expit (-1) /\ p3 = expit 0
    /\ (Rabs (p1 - 881 / 1000) < 5 / 10000)%R
    /\ (Rabs (p2 - 269 / 1000) < 5 / 10000)%R
    /\ p3 = (5 / 10)%R
    /\ calculate_calls nat evs
       = [({| shape := [3]; data := [1; 0; 1]%R |},
           {| shape := [3; 1]; data := [p1; p2; p3] |})]
    /\ (log_calls nat evs).*2
       = [graded_examples {| shape := [3]; data := [1; 0; 1]%R |}
            {| shape := [3; 1]; data := [p1; p2; p3] |}]
    /\ this s' = __init__.
Proof.
  apply (end_to_end_scenario nat graded_examples lightning_trainer
           (fresh attached)).
  - reflexivity.
  - constructor.
Defined.



(** ** Concrete runs of the further properties *)

(** X1, on an output without [labels]. *)
Lemma on_test_batch_end_missing_key_witness :
  on_test_batch_end nat (Some without_labels) (fresh attached)
  = (Raise (KeyError "labels"), fresh attached, []).
Proof.
  apply (proj2 (on_test_batch_end_missing_key nat without_labels (fresh attached))).
  - eexists. reflexivity.
  - reflexivity.
Defined.

(** X2, on logits still attached to the graph. *)
Lemma on_test_batch_end_unconvertible_logits_witness :
  on_test_batch_end nat (Some with_graph_logits) (fresh attached)
  = (Raise (RuntimeError numpy_requires_grad), fresh attached, []).
Proof.
  apply (on_test_batch_end_unconvertible_logits nat with_graph_logits
           (attached_to_graph {| shape := [1; 1]; data := [2%R] |})).
  - reflexivity.
  - eexists. reflexivity.
  - reflexivity.
Defined.

(** X3, on labels still attached to the graph. *)
Lemma on_test_batch_end_unconvertible_labels_witness :
  on_test_batch_end nat (Some with_graph_labels) (fresh attached)
  = (Raise (RuntimeError numpy_requires_grad),
     {| this := {| all_preds := [] ++ [{| shape := [1; 1]; data := [2%R] |}];
                   all_labels := [] |};
        mlflow := attached |},
     [])
  /\ (paired (this (fresh attached)) ->
      ~ paired {| all_preds := [] ++ [{| shape := [1; 1]; data := [2%R] |}];
                  all_labels := [] |}).
Proof.
  apply (on_test_batch_end_unconvertible_labels nat with_graph_labels
           (detached {| shape := [1; 1]; data := [2%R] |})
           (attached_to_graph {| shape := [1]; data := [1%R] |}));
    reflexivity.
Defined.

(** X4, on labels of a scalar type numpy lacks. *)
Lemma on_test_batch_end_outcomes_witness :
  ~ well_formed (Some with_bfloat16_labels)
  /\ exists o,
      Some with_bfloat16_labels = Some o
      /\ ((o !! "logits" = None
           /\ TypeError unsupported_scalar_type = KeyError "logits")
          \/ (is_Some (o !! "logits") /\ o !! "labels" = None
              /\ TypeError unsupported_scalar_type = KeyError "labels")
          \/ (exists logits labels,
                o !! "logits" = Some logits /\ o !! "labels" = Some labels
                /\ (numpy (cpu logits) = Raise (TypeError unsupported_scalar_type)
                    \/ ((exists preds, numpy (cpu logits) = Return preds)
                        /\ numpy (cpu labels)
                           = Raise (TypeError unsupported_scalar_type))))).
Proof.
  exact (on_test_batch_end_outcomes nat (Some with_bfloat16_labels)
           (fresh attached)).
Defined.

(** X5, with a [loss] entry added. *)
Lemma on_test_batch_end_reads_two_keys_witness :
  on_test_batch_end nat (Some with_loss) (fresh attached)
  = on_test_batch_end nat (Some first_output) (fresh attached).
Proof.
  apply on_test_batch_end_reads_two_keys; reflexivity.
Defined.

(** X6, on a loop that raises at its second batch. *)
Lemma test_batches_append_only_witness :
  @nil (event nat) = []
  /\ exists preds labs,
      {| this := {| all_preds := [{| shape := [1; 1]; data := [2%R] |};
                                  {| shape := [1; 1]; data := [2%R] |}];
                    all_labels := [{| shape := [1]; data := [1%R] |}] |};
         mlflow := attached |}
      = extended (fresh attached) preds labs
      /\ length labs <= length preds <= S (length labs).
Proof.
  exact (test_batches_append_only nat
           [Some first_output; Some with_graph_labels; Some first_output]
           (fresh attached)).
Defined.

(** X8, on logits of one and of two columns. *)
Lemma on_test_end_ragged_witness :
  exists msg,
    on_test_end nat graded_examples lightning_trainer
      {| this := ragged; mlflow := attached |}
    = (Raise (ValueError msg), {| this := ragged; mlflow := attached |}, []).
Proof.
  apply (on_test_end_ragged nat graded_examples lightning_trainer
           {| this := ragged; mlflow := attached |}
           {| shape := [1; 1]; data := [2%R] |}
           {| shape := [1; 2]; data := [0; 1]%R |}).
  - left. split; simpl; auto.
  - simpl. discriminate.
Defined.

(** X9, on ragged buffers: nothing called, nothing changed. *)
Lemma on_test_end_tracking_stage_witness :
  (exists msg,
     @Raise unit (ValueError dimensions_must_match) = Raise (ValueError msg)
     /\ {| this := ragged; mlflow := idle |} = {| this := ragged; mlflow := idle |}
     /\ @nil (event nat) = []
     /\ (np_concatenate (all_preds ragged) = Raise (ValueError msg)
         \/ np_concatenate (all_labels ragged) = Raise (ValueError msg)))
  \/ (exists P L,
        np_concatenate (all_preds ragged) = Return P
        /\ np_concatenate (all_labels ragged) = Return L
        /\ tracking_uri idle = "http://127.0.0.1:5000"
        /\ take 2 (@nil (event nat))
           = [set_tracking_uri_call "http://127.0.0.1:5000"; active_run_call]).
Proof.
  exact (on_test_end_tracking_stage nat graded_examples lightning_trainer
           {| this := ragged; mlflow := idle |}).
Defined.

(** X10, with a logger bound to another run than the active one. *)
Lemma on_test_end_active_run_wins_witness :
  on_test_end nat graded_examples lightning_trainer
    {| this := buffered; mlflow := attached |}
  = on_test_end nat graded_examples other_trainer
      {| this := buffered; mlflow := attached |}
  /\ match on_test_end nat graded_examples lightning_trainer
             {| this := buffered; mlflow := attached |} with
     | (_, _, evs) =>
         forall run m, In (run, m) (log_calls nat evs) -> run = Some "run-1"
     end.
Proof.
  apply (on_test_end_active_run_wins nat graded_examples lightning_trainer
           other_trainer {| this := buffered; mlflow := attached |}).
  - reflexivity.
  - discriminate.
Defined.

(** X11, with no run active and a serving backend. *)
Lemma on_test_end_ends_own_run_witness :
  end_run_calls nat
    (on_test_end nat graded_examples lightning_trainer
       {| this := buffered; mlflow := idle |}).2 = [FINISHED].
Proof.
  apply (on_test_end_ends_own_run nat graded_examples lightning_trainer
           {| this := buffered; mlflow := idle |}); reflexivity.
Defined.

(** X12, with one batch buffered. *)
Lemma on_test_end_start_run_refused_witness :
  on_test_end nat graded_examples lightning_trainer
    {| this := buffered; mlflow := refusing |}
  = (Raise (MlflowException run_not_fetched),
     {| this := buffered;
        mlflow := {| tracking_uri := "http://127.0.0.1:5000";
                     active_run_stack := [];
                     backend := [] |} |},
     [set_tracking_uri_call "http://127.0.0.1:5000";
      active_run_call;
      start_run_call "run-1"]).
Proof.
  apply (on_test_end_start_run_refused nat graded_examples lightning_trainer
           {| this := buffered; mlflow := refusing |}
           {| shape := [2; 1]; data := [3; -3]%R |}
           {| shape := [2]; data := [1; 0]%R |} []); reflexivity.
Defined.

(** X13, after the pass of the counterexample to C1. *)
Lemma failed_pass_leaks_witness :
  all_preds buffered = (gradable one_batch).*1
  /\ all_labels buffered = (gradable one_batch).*2
  /\ exists s2,
      test_batches nat scenario {| this := buffered; mlflow := attached |}
      = (Return tt, s2, [])
      /\ all_preds (this s2) = (gradable one_batch).*1 ++ (gradable scenario).*1
      /\ all_labels (this s2) = (gradable one_batch).*2 ++ (gradable scenario).*2.
Proof.
  eapply (failed_pass_leaks nat graded_examples lightning_trainer one_batch
            scenario (fresh unreachable) {| this := buffered; mlflow := attached |}).
  - reflexivity.
  - repeat constructor; eexists; reflexivity.
  - repeat constructor; eexists; reflexivity.
  - reflexivity.
Defined.
